(** * multilspy: the TypeScript language-server plugin

    A shallow embedding of
    [src/multilspy/language_servers/typescript_language_server/typescript_language_server.py]
    and the properties of its session start-up, initialize parameters,
    runtime-dependency set-up and capability-registration handler.

    Python values are embedded as a small value type, exceptions as the name
    of their class together with their message, and the stateful parts
    (the session object, the file system touched by the installer) by
    explicit state passing in a state-and-exception monad. *)

From Stdlib Require Import ZArith List String Ascii Bool Lia.
From stdpp Require Import base option gmap strings list.
Import ListNotations.

Open Scope string_scope.
Open Scope list_scope.
Open Scope Z_scope.

(** ** Python values *)

(** A Python [float]: a dyadic rational [m * 2^e], an infinity or NaN.
    Only equality is ever taken of it ([==] in the capability checks). *)
Inductive pyfloat :=
| FFinite (m e : Z)
| FInf (negative : bool)
| FNaN.

#[local] Set Warnings "-register-all".

(** What [json.load] produces, which is also what the JSON-RPC layer hands
    to the plugin: [None], [bool], [int], [float], [str], [list], and [dict]
    with string keys in insertion order. *)
Inductive pyval :=
| PNone
| PBool (b : bool)
| PInt (n : Z)
| PFloat (f : pyfloat)
| PStr (s : string)
| PList (l : list pyval)
| PDict (d : list (string * pyval)).

(** An exception is identified by the name of its class; the message is kept
    for the places where the source builds one. *)
Record exn := Exn { exn_class : string; exn_msg : string }.

(** The result of running a piece of Python: it returns, it raises, or it
    never comes back (an [await] on something that is never completed). *)
Inductive outcome (A : Type) :=
| Ok (a : A)
| Raise (e : exn)
| Hang.
Arguments Ok {A} a.
Arguments Raise {A} e.
Arguments Hang {A}.

Definition obind {A B} (m : outcome A) (k : A -> outcome B) : outcome B :=
  match m with
  | Ok a => k a
  | Raise e => Raise e
  | Hang => Hang
  end.

Notation "'let?' x ':=' m 'in' k" := (obind m (fun x => k))
  (at level 10, x name, m at level 100, k at level 200).

Definition AssertionError (msg : string) : exn := Exn "AssertionError" msg.
Definition KeyError (key : string) : exn := Exn "KeyError" key.
Definition TypeError (msg : string) : exn := Exn "TypeError" msg.
Definition IndexError (msg : string) : exn := Exn "IndexError" msg.
Definition ValueError (msg : string) : exn := Exn "ValueError" msg.
Definition AttributeError (msg : string) : exn := Exn "AttributeError" msg.
Definition FileNotFoundError (msg : string) : exn := Exn "FileNotFoundError" msg.

(** [assert cond, msg] *)
Definition py_assert (cond : bool) (msg : string) : outcome unit :=
  if cond then Ok tt else Raise (AssertionError msg).

(** ** Dictionaries *)

(** [d.get(k)] on the entries of a dict. *)
Fixpoint dict_get {A} (k : string) (d : list (string * A)) : option A :=
  match d with
  | [] => None
  | (k', v) :: d' => if String.eqb k k' then Some v else dict_get k d'
  end.

(** [d[k] = v]: an existing key keeps its place, a new key goes last. *)
Fixpoint dict_set {A} (k : string) (v : A) (d : list (string * A)) : list (string * A) :=
  match d with
  | [] => [(k, v)]
  | (k', v') :: d' =>
      if String.eqb k k' then (k, v) :: d' else (k', v') :: dict_set k v d'
  end.

(** [del d[k]] / [d.pop(k, None)], once the key is known to be handled: no
    entry for [k] is left. *)
Fixpoint dict_remove {A} (k : string) (d : list (string * A)) : list (string * A) :=
  match d with
  | [] => []
  | (k', v') :: d' =>
      if String.eqb k k' then dict_remove k d' else (k', v') :: dict_remove k d'
  end.

Definition dict_mem {A} (k : string) (d : list (string * A)) : bool :=
  match dict_get k d with Some _ => true | None => false end.

(** ** Equality, [==] *)

Definition float_eq_int (f : pyfloat) (n : Z) : bool :=
  match f with
  | FFinite m e => if 0 <=? e then m * 2 ^ e =? n else m =? n * 2 ^ (- e)
  | _ => false
  end.

Definition float_eq (f g : pyfloat) : bool :=
  match f, g with
  | FFinite m1 e1, FFinite m2 e2 =>
      if e1 <=? e2 then m1 =? m2 * 2 ^ (e2 - e1) else m1 * 2 ^ (e1 - e2) =? m2
  | FInf a, FInf b => Bool.eqb a b
  | _, _ => false
  end.

(** Python's [a == b] on these values: [bool] is a subclass of [int]
    ([True == 1]), numbers compare by value across [int] and [float], lists
    compare element-wise, dicts compare as mappings regardless of order. *)
Fixpoint py_eq (a b : pyval) {struct a} : bool :=
  match a, b with
  | PNone, PNone => true
  | PBool x, PBool y => Bool.eqb x y
  | PBool x, PInt n => Z.b2z x =? n
  | PInt n, PBool x => n =? Z.b2z x
  | PBool x, PFloat f => float_eq_int f (Z.b2z x)
  | PFloat f, PBool x => float_eq_int f (Z.b2z x)
  | PInt n, PInt m => n =? m
  | PInt n, PFloat f => float_eq_int f n
  | PFloat f, PInt n => float_eq_int f n
  | PFloat f, PFloat g => float_eq f g
  | PStr s, PStr t => String.eqb s t
  | PList l1, PList l2 =>
      (fix go (l1 l2 : list pyval) : bool :=
         match l1, l2 with
         | [], [] => true
         | x :: l1', y :: l2' => py_eq x y && go l1' l2'
         | _, _ => false
         end) l1 l2
  | PDict d1, PDict d2 =>
      Nat.eqb (length d1) (length d2) &&
      (fix go (d : list (string * pyval)) : bool :=
         match d with
         | [] => true
         | (k, v) :: d' =>
             match dict_get k d2 with
             | Some v' => py_eq v v'
             | None => false
             end && go d'
         end) d1
  | _, _ => false
  end.

(** ** Subscripting *)

Definition type_name (v : pyval) : string :=
  match v with
  | PNone => "NoneType"
  | PBool _ => "bool"
  | PInt _ => "int"
  | PFloat _ => "float"
  | PStr _ => "str"
  | PList _ => "list"
  | PDict _ => "dict"
  end.

(** [c[k]] for a string key [k]. *)
Definition py_getitem_key (c : pyval) (k : string) : outcome pyval :=
  match c with
  | PDict d =>
      match dict_get k d with
      | Some v => Ok v
      | None => Raise (KeyError k)
      end
  | PList _ => Raise (TypeError "list indices must be integers or slices, not str")
  | PStr _ => Raise (TypeError "string indices must be integers, not 'str'")
  | _ => Raise (TypeError (type_name c +:+ " object is not subscriptable"))
  end.

(** Position of index [i] in a sequence of length [n], negative indices
    counting from the end. *)
Definition seq_index (i : Z) (n : nat) : option nat :=
  let j := if i <? 0 then i + Z.of_nat n else i in
  if (0 <=? j) && (j <? Z.of_nat n) then Some (Z.to_nat j) else None.

(** [c[i]] for an integer [i].  A dict decoded from JSON has string keys only,
    so an integer key is never found. *)
Definition py_getitem_idx (c : pyval) (i : Z) : outcome pyval :=
  match c with
  | PList l =>
      match seq_index i (length l) with
      | Some j =>
          match nth_error l j with
          | Some v => Ok v
          | None => Raise (IndexError "list index out of range")
          end
      | None => Raise (IndexError "list index out of range")
      end
  | PStr s =>
      match seq_index i (String.length s) with
      | Some j =>
          match String.get j s with
          | Some ch => Ok (PStr (String ch EmptyString))
          | None => Raise (IndexError "string index out of range")
          end
      | None => Raise (IndexError "string index out of range")
      end
  | PDict _ => Raise (KeyError "0")
  | _ => Raise (TypeError (type_name c +:+ " object is not subscriptable"))
  end.

(** [c[k] = v] for a string key [k]. *)
Definition py_setitem_key (c : pyval) (k : string) (v : pyval) : outcome pyval :=
  match c with
  | PDict d => Ok (PDict (dict_set k v d))
  | PList _ => Raise (TypeError "list indices must be integers or slices, not str")
  | _ => Raise (TypeError (type_name c +:+ " object does not support item assignment"))
  end.

(** [del c[k]] for a string key [k]. *)
Definition py_delitem_key (c : pyval) (k : string) : outcome pyval :=
  match c with
  | PDict d =>
      if dict_mem k d then Ok (PDict (dict_remove k d)) else Raise (KeyError k)
  | PList _ => Raise (TypeError "list indices must be integers or slices, not str")
  | _ => Raise (TypeError (type_name c +:+ " object doesn't support item deletion"))
  end.

(** Replace the element at position [j] of a list (stdpp's list insert). *)
Definition list_store (j : nat) (v : pyval) (l : list pyval) : list pyval :=
  <[j := v]> l.

(** ** Synchronous library calls *)

(** A synchronous call into the standard library or the operating system
    returns or raises. *)
Inductive result (A : Type) :=
| Returns (a : A)
| Raises (e : exn).
Arguments Returns {A} a.
Arguments Raises {A} e.

Definition call {A} (r : result A) : outcome A :=
  match r with
  | Returns a => Ok a
  | Raises e => Raise e
  end.

(** ** State and exceptions *)

(** A computation over a mutable state [S]: the state survives an exception,
    as the fields of a Python object do. *)
Definition M (S A : Type) : Type := S -> outcome A * S.

Definition st_ret {S A} (a : A) : M S A := fun s => (Ok a, s).

Definition st_bind {S A B} (m : M S A) (k : A -> M S B) : M S B :=
  fun s =>
    match m s with
    | (Ok a, s') => k a s'
    | (Raise e, s') => (Raise e, s')
    | (Hang, s') => (Hang, s')
    end.

Definition st_lift {S A} (o : outcome A) : M S A := fun s => (o, s).

Definition st_raise {S A} (e : exn) : M S A := fun s => (Raise e, s).

Definition st_gets {S A} (f : S -> A) : M S A := fun s => (Ok (f s), s).

Definition st_modify {S} (f : S -> S) : M S unit := fun s => (Ok tt, f s).

Notation "'let!' x ':=' m 'in' k" := (st_bind m (fun x => k))
  (at level 10, x name, m at level 100, k at level 200).

Notation "m ';;;' k" := (st_bind m (fun _ => k))
  (at level 100, k at level 200, right associativity).

(** [for x in xs: body x] *)
Fixpoint st_for {S A} (xs : list A) (body : A -> M S unit) : M S unit :=
  match xs with
  | [] => st_ret tt
  | x :: xs' => body x ;;; st_for xs' body
  end.

(** [with cm: block], for a context manager that does not swallow exceptions:
    [exit] receives the exception the block raised, if any, and afterwards
    that exception goes on (or the one [exit] raised itself). *)
Definition st_with {S A} (enter : M S unit) (exit : option exn -> M S unit)
    (block : M S A) : M S A :=
  enter ;;;
  fun s =>
    match block s with
    | (Ok a, s') => (exit None ;;; st_ret a) s'
    | (Raise e, s') => (exit (Some e) ;;; st_raise e) s'
    | (Hang, s') => (Hang, s')
    end.

(** ** More of Python's built-in operations *)

(** [d.pop(k, None)], the popped value dropped. *)
Definition py_pop_default (c : pyval) (k : string) : outcome pyval :=
  match c with
  | PDict d => Ok (PDict (dict_remove k d))
  | PList _ => Raise (TypeError "pop expected at most 1 argument, got 2")
  | _ => Raise (AttributeError (type_name c +:+ " object has no attribute 'pop'"))
  end.

(** [d.get(k, default)] *)
Definition py_get_default (c : pyval) (k : string) (default : pyval) : outcome pyval :=
  match c with
  | PDict d =>
      match dict_get k d with
      | Some v => Ok v
      | None => Ok default
      end
  | _ => Raise (AttributeError (type_name c +:+ " object has no attribute 'get'"))
  end.

(** [len(c)] *)
Definition py_len (c : pyval) : outcome Z :=
  match c with
  | PList l => Ok (Z.of_nat (length l))
  | PDict d => Ok (Z.of_nat (length d))
  | PStr s => Ok (Z.of_nat (String.length s))
  | _ => Raise (TypeError ("object of type " +:+ type_name c +:+ " has no len()"))
  end.

Fixpoint string_chars (s : string) : list pyval :=
  match s with
  | EmptyString => []
  | String ch s' => PStr (String ch EmptyString) :: string_chars s'
  end.

(** The items [for x in c] goes through: the elements of a list, the keys of
    a dict, the characters of a string. *)
Definition py_iter (c : pyval) : outcome (list pyval) :=
  match c with
  | PList l => Ok l
  | PDict d => Ok (map (fun kv => PStr (fst kv)) d)
  | PStr s => Ok (string_chars s)
  | _ => Raise (TypeError (type_name c +:+ " object is not iterable"))
  end.

(** [k in c] for a string [k]: key membership in a dict, element membership
    in a list, substring test in a string. *)
Definition py_contains (c : pyval) (k : string) : outcome bool :=
  match c with
  | PDict d => Ok (dict_mem k d)
  | PList l => Ok (existsb (fun x => py_eq x (PStr k)) l)
  | PStr s =>
      Ok (match String.index 0 k s with Some _ => true | None => false end)
  | _ => Raise (TypeError ("argument of type " +:+ type_name c +:+ " is not iterable"))
  end.

(** Truth value of what [shutil.which] returns: [None] and the empty string
    are false. *)
Definition which_found (w : option string) : bool :=
  match w with
  | Some p => negb (String.eqb p EmptyString)
  | None => false
  end.

(** [s.find(sub)]: the first position of [sub] in [s], or [-1]. *)
Definition str_find (s sub : string) : Z :=
  match String.index 0 sub s with
  | Some i => Z.of_nat i
  | None => -1
  end.

(** [s[i:]] for [0 <= i]. *)
Definition str_from (s : string) (i : Z) : string :=
  String.substring (Z.to_nat i) (String.length s - Z.to_nat i) s.

(** ** Platforms *)

(** The members of [PlatformId] the source names; the enum is declared in
    [multilspy_utils], which is not part of the sources, and its remaining
    members are kept apart by their value. *)
Inductive PlatformId :=
| LINUX_x64 | LINUX_arm64 | OSX | OSX_x64 | OSX_arm64 | WIN_x64 | WIN_arm64
| OTHER_PLATFORM (value : string).

#[global] Instance PlatformId_eq_dec : EqDecision PlatformId.
Proof. solve_decision. Defined.

Definition valid_platforms : list PlatformId :=
  [LINUX_x64; LINUX_arm64; OSX; OSX_x64; OSX_arm64; WIN_x64; WIN_arm64].

(** [x in xs] on enum members. *)
Definition platform_in (p : PlatformId) (ps : list PlatformId) : bool :=
  existsb (fun q => bool_decide (p = q)) ps.

(** ** The plugin object *)

Record ProcessLaunchInfo := { cmd : string; cwd : string }.

(** What [__init__] passes to the base class and keeps. *)
Record TypeScriptLanguageServer := {
  repository_root_path : string;
  process_launch_info : ProcessLaunchInfo;
  language_id : string
}.

(** ** The session *)

(** The four callbacks [start_server] defines. *)
Inductive callback :=
| cb_register_capability_handler
| cb_execute_client_command_handler
| cb_do_nothing
| cb_window_log_message.

(** What the session does that is visible from outside, in order. *)
Inductive event :=
| EvOnRequest (method : string)
| EvOnNotification (method : string)
| EvLog (msg : string)
| EvSuperEnter
| EvSuperExit (exc : option exn)
| EvServerStart
| EvInitialize (params : pyval)
| EvInitialized (params : pyval)
| EvShutdown
| EvStop.

Definition is_server_start (ev : event) : bool :=
  match ev with EvServerStart => true | _ => false end.
Definition is_initialized (ev : event) : bool :=
  match ev with EvInitialized _ => true | _ => false end.
Definition is_shutdown (ev : event) : bool :=
  match ev with EvShutdown => true | _ => false end.
Definition is_stop (ev : event) : bool :=
  match ev with EvStop => true | _ => false end.

(** Modelled from the spec: the handler registry of [self.server]
    ([on_request], [on_notification]), whose class is not part of the
    sources.  A HandlerEntry is {method name, handler function,
    expects-response boolean}; the registry maps a method name to its entry
    and registering a method again overrides the entry. *)
Record HandlerEntry := {
  handler : callback;
  expects_response : bool
}.

(** The mutable part of the plugin object: the registry of its server
    handle, its [asyncio.Event]s (set or not), and the trace of what it did
    so far.  [server_ready] is created by [__init__] (line 46) and
    [completions_available] is set by every start (line 256).  No line of
    the sources creates [initialize_searcher_command_available], which the
    capability-registration handler sets (line 215): the object has that
    attribute only if something else gave it one.  [None] stands for an
    object without it, on which reading the attribute raises
    [AttributeError]. *)
Record session := {
  handlers : gmap string HandlerEntry;
  completions_available : bool;
  server_ready : bool;
  initialize_searcher_command_available : option bool;
  trace : list event
}.

Definition with_handlers (f : gmap string HandlerEntry -> gmap string HandlerEntry)
    (s : session) : session :=
  {| handlers := f (handlers s);
     completions_available := completions_available s;
     server_ready := server_ready s;
     initialize_searcher_command_available := initialize_searcher_command_available s;
     trace := trace s |}.

Definition emit (ev : event) (s : session) : session :=
  {| handlers := handlers s;
     completions_available := completions_available s;
     server_ready := server_ready s;
     initialize_searcher_command_available := initialize_searcher_command_available s;
     trace := trace s ++ [ev] |}.

(** [self.completions_available.set()] *)
Definition set_completions_available (s : session) : session :=
  {| handlers := handlers s;
     completions_available := true;
     server_ready := server_ready s;
     initialize_searcher_command_available := initialize_searcher_command_available s;
     trace := trace s |}.

(** [self.server_ready.set()] *)
Definition set_server_ready (s : session) : session :=
  {| handlers := handlers s;
     completions_available := completions_available s;
     server_ready := true;
     initialize_searcher_command_available := initialize_searcher_command_available s;
     trace := trace s |}.

(** The session once the [initialize_searcher_command_available] event of
    an object that has one is set. *)
Definition set_initialize_searcher_command_available (s : session) : session :=
  {| handlers := handlers s;
     completions_available := completions_available s;
     server_ready := server_ready s;
     initialize_searcher_command_available := Some true;
     trace := trace s |}.

Definition no_searcher_event_msg : string :=
  "'TypeScriptLanguageServer' object has no attribute 'initialize_searcher_command_available'".

(** [self.initialize_searcher_command_available.set()], line 215: the
    attribute is looked up first, which raises [AttributeError] on an object
    without it. *)
Definition initialize_searcher_command_available_set : M session unit :=
  fun s =>
    match initialize_searcher_command_available s with
    | Some _ => (Ok tt, set_initialize_searcher_command_available s)
    | None => (Raise (AttributeError no_searcher_event_msg), s)
    end.

(** [self.server.on_request(method, cb)] *)
Definition on_request (method : string) (cb : callback) : M session unit :=
  st_modify (emit (EvOnRequest method)) ;;;
  st_modify (with_handlers
    (insert method {| handler := cb; expects_response := true |})).

(** [self.server.on_notification(method, cb)] *)
Definition on_notification (method : string) (cb : callback) : M session unit :=
  st_modify (emit (EvOnNotification method)) ;;;
  st_modify (with_handlers
    (insert method {| handler := cb; expects_response := false |})).

(** [self.logger.log(msg, level)] *)
Definition log (msg : string) : M session unit := st_modify (emit (EvLog msg)).

(** [await event.wait()]: returns at once when the event is set, and does
    not return while it is not. *)
Definition event_wait (flag : session -> bool) : M session unit :=
  fun s => if flag s then (Ok tt, s) else (Hang, s).

(** An awaited call on the server handle: it is recorded, then it completes
    as the server handle decides. *)
Definition await {A} (ev : event) (o : outcome A) : M session A :=
  st_modify (emit ev) ;;; st_lift o.

(** A call on the server handle that is not awaited: it is recorded, then
    it returns or raises. *)
Definition notify {A} (ev : event) (r : result A) : M session A :=
  st_modify (emit ev) ;;; st_lift (call r).

(** *** The handlers *)

Definition executeCommand : pyval := PStr "workspace/executeCommand".

(** The body of the loop of [register_capability_handler], lines 214-215. *)
Definition registration_body (registration : pyval) : M session unit :=
  let! method := st_lift (py_getitem_key registration "method") in
  if py_eq method executeCommand
  then initialize_searcher_command_available_set
  else st_ret tt.

(** [register_capability_handler(params)], lines 211-219. *)
Definition register_capability_handler (params : pyval) : M session pyval :=
  let! present := st_lift (py_contains params "registrations") in
  st_lift (py_assert present EmptyString) ;;;
  let! registrations := st_lift (py_getitem_key params "registrations") in
  let! items := st_lift (py_iter registrations) in
  st_for items registration_body ;;;
  st_ret PNone.

(** [execute_client_command_handler(params)], lines 221-222. *)
Definition execute_client_command_handler (params : pyval) : M session pyval :=
  st_ret (PList []).

(** [do_nothing(params)], lines 224-225. *)
Definition do_nothing (params : pyval) : M session pyval := st_ret PNone.

(** [window_log_message(msg)], lines 227-228; the logged text is abbreviated
    to its fixed prefix. *)
Definition window_log_message (msg : pyval) : M session pyval :=
  log "LSP: window/logMessage: " ;;; st_ret PNone.

Definition run_callback (cb : callback) (params : pyval) : M session pyval :=
  match cb with
  | cb_register_capability_handler => register_capability_handler params
  | cb_execute_client_command_handler => execute_client_command_handler params
  | cb_do_nothing => do_nothing params
  | cb_window_log_message => window_log_message params
  end.

(** *** The capability checks of [start_server], lines 248-253 *)

Definition double_quote : string := String (ascii_of_nat 34) EmptyString.

Definition expected_completion_provider : pyval :=
  PDict [("triggerCharacters",
          PList [PStr "."; PStr double_quote; PStr "'"; PStr "/"; PStr "@"; PStr "<"]);
         ("resolveProvider", PBool true)].

Definition check_capabilities (init_response : pyval) : outcome unit :=
  let? capabilities := py_getitem_key init_response "capabilities" in
  let? sync := py_getitem_key capabilities "textDocumentSync" in
  let? _ := py_assert (py_eq sync (PInt 2)) EmptyString in
  let? capabilities := py_getitem_key init_response "capabilities" in
  let? present := py_contains capabilities "completionProvider" in
  let? _ := py_assert present EmptyString in
  let? capabilities := py_getitem_key init_response "capabilities" in
  let? provider := py_getitem_key capabilities "completionProvider" in
  py_assert (py_eq provider expected_completion_provider) EmptyString.

(** ** The operating system and the standard library *)

(** What the plugin asks of its surroundings.  [fs] is the state of the file
    system, which the installer changes; everything else is read only.
    [PlatformUtils], the two JSON files next to the module, [shutil],
    [subprocess], [pwd], [pathlib] and [os.path] are not part of the sources
    and are taken as they come. *)
Record os_api (fs : Type) := {
  (** [PlatformUtils.get_platform_id()] *)
  get_platform_id : result PlatformId;
  (** [str(platform_id)], for messages *)
  platform_str : PlatformId -> string;
  (** [platform_id.startswith(prefix)] *)
  platform_startswith : PlatformId -> string -> result bool;
  (** [os.path.dirname(__file__)] *)
  module_dir : string;
  (** [os.path.join(a, *rest)] *)
  path_join : string -> list string -> string;
  (** [json.load(open(path))] *)
  json_load_file : string -> result pyval;
  (** [shutil.which(name)] *)
  which : string -> fs -> result (option string);
  (** [os.path.exists(path)] *)
  path_exists : string -> fs -> bool;
  (** [os.makedirs(path, exist_ok=True, mode=0o777)] *)
  makedirs : string -> fs -> result unit * fs;
  (** [os.chmod(path, 0o777)] *)
  chmod : string -> fs -> result unit * fs;
  (** [pwd.getpwuid(os.getuid()).pw_name] *)
  current_user_name : fs -> result string;
  (** [os.stat(path)], read for the debugging output only *)
  os_stat : string -> fs -> result unit;
  (** [subprocess.run(cmd, shell=True, check=True, cwd=cwd, ...)] *)
  subprocess_run : pyval -> string -> fs -> result unit * fs;
  (** [os.getpid()] *)
  getpid : Z;
  (** [pathlib.Path(path).as_uri()] *)
  as_uri : string -> result string;
  (** [os.path.basename(path)] *)
  basename : string -> string
}.
Arguments get_platform_id {fs} _.
Arguments platform_str {fs} _ _.
Arguments platform_startswith {fs} _ _ _.
Arguments module_dir {fs} _.
Arguments path_join {fs} _ _ _.
Arguments json_load_file {fs} _ _.
Arguments which {fs} _ _ _.
Arguments path_exists {fs} _ _ _.
Arguments makedirs {fs} _ _ _.
Arguments chmod {fs} _ _ _.
Arguments current_user_name {fs} _ _.
Arguments os_stat {fs} _ _ _.
Arguments subprocess_run {fs} _ _ _ _.
Arguments getpid {fs} _.
Arguments as_uri {fs} _ _.
Arguments basename {fs} _ _.

(** A call that reads the file system. *)
Definition sys_read {S A} (f : S -> result A) : M S A := fun s => (call (f s), s).

(** A call that may change the file system. *)
Definition sys_do {S A} (f : S -> result A * S) : M S A :=
  fun s => let '(r, s') := f s in (call r, s').

(** ** [_get_initialize_params], lines 172-194 *)

(** [d["workspaceFolders"][0][k] = v].  The folder is changed in place in
    Python; here the changed folder is put back into the list and the list
    into [d]. *)
Definition set_in_first_workspace_folder (d : pyval) (k : string) (v : pyval)
    : outcome pyval :=
  let? folders := py_getitem_key d "workspaceFolders" in
  let? folder := py_getitem_idx folders 0 in
  let? folder' := py_setitem_key folder k v in
  match folders with
  | PList l => py_setitem_key d "workspaceFolders" (PList (list_store 0 folder' l))
  | _ => Raise (TypeError (type_name folder +:+ " object does not support item assignment"))
  end.

Definition _get_initialize_params {fs} (os : os_api fs)
    (repository_absolute_path : string) : outcome pyval :=
  let? d := call (json_load_file os (path_join os (module_dir os) ["initialize_params.json"])) in
  let? d := py_delitem_key d "_description" in
  let? d := py_setitem_key d "processId" (PInt (getpid os)) in
  let? v := py_getitem_key d "rootPath" in
  let? _ := py_assert (py_eq v (PStr "$rootPath")) EmptyString in
  let? d := py_setitem_key d "rootPath" (PStr repository_absolute_path) in
  let? v := py_getitem_key d "rootUri" in
  let? _ := py_assert (py_eq v (PStr "$rootUri")) EmptyString in
  let? uri := call (as_uri os repository_absolute_path) in
  let? d := py_setitem_key d "rootUri" (PStr uri) in
  let? folders := py_getitem_key d "workspaceFolders" in
  let? folder := py_getitem_idx folders 0 in
  let? v := py_getitem_key folder "uri" in
  let? _ := py_assert (py_eq v (PStr "$uri")) EmptyString in
  let? uri := call (as_uri os repository_absolute_path) in
  let? d := set_in_first_workspace_folder d "uri" (PStr uri) in
  let? folders := py_getitem_key d "workspaceFolders" in
  let? folder := py_getitem_idx folders 0 in
  let? v := py_getitem_key folder "name" in
  let? _ := py_assert (py_eq v (PStr "$name")) EmptyString in
  let? d := set_in_first_workspace_folder d "name"
              (PStr (basename os repository_absolute_path)) in
  Ok d.

(** ** [setup_runtime_dependencies], lines 48-170

    Every [try] block of the function has handlers that print the error and
    re-raise it, so an exception raised in a block leaves the function
    unchanged; the [print] calls are not modelled. *)

Definition not_found_in_path_msg : string := "'site-packages/' not found in path".

Definition executable_not_found_msg : string :=
  "typescript-language-server executable not found. Please install typescript-language-server and try again.".

(** One round of the installation loop, lines 128-153. *)
Definition install_dependency {fs} (os : os_api fs) (tsserver_ls_dir : string)
    (dependency : pyval) : M fs unit :=
  let! command := st_lift (py_get_default dependency "command" PNone) in
  let! platform_id := st_lift (call (get_platform_id os)) in
  let! windows := st_lift (call (platform_startswith os platform_id "win")) in
  if windows
  then sys_do (subprocess_run os command tsserver_ls_dir)
  else
    let! user := sys_read (current_user_name os) in
    sys_read (os_stat os tsserver_ls_dir) ;;;
    sys_read (os_stat os tsserver_ls_dir) ;;;
    sys_do (subprocess_run os command tsserver_ls_dir).

Definition setup_runtime_dependencies {fs} (os : os_api fs) : M fs string :=
  (* the platform, lines 52-73 *)
  let! platform_id := st_lift (call (get_platform_id os)) in
  (if platform_in platform_id valid_platforms
   then st_ret tt
   else st_raise (AssertionError
          ("Platform " +:+ platform_str os platform_id +:+
           " is not supported for multilspy javascript/typescript at the moment"))) ;;;
  (* the runtime dependencies, lines 75-87 *)
  let runtime_json_path := path_join os (module_dir os) ["runtime_dependencies.json"] in
  let! d := st_lift (call (json_load_file os runtime_json_path)) in
  let! d := st_lift (py_pop_default d "_description") in
  let! runtime_dependencies := st_lift (py_get_default d "runtimeDependencies" (PList [])) in
  let! _ := st_lift (py_len runtime_dependencies) in
  (* the paths, lines 89-104 *)
  let original_path := module_dir os in
  let src_index := str_find original_path "site-packages/" in
  (if src_index =? -1
   then st_raise (ValueError not_found_in_path_msg)
   else st_ret tt) ;;;
  let relative_path := str_from original_path src_index in
  let new_path := path_join os "/tmp" [EmptyString] in
  let tsserver_ls_dir := path_join os new_path ["static"; "ts-lsp"] in
  (* node and npm, lines 106-119 *)
  let! node := sys_read (which os "node") in
  st_lift (py_assert (which_found node) "node is not installed or isn't in PATH") ;;;
  let! npm := sys_read (which os "npm") in
  st_lift (py_assert (which_found npm) "npm is not installed or isn't in PATH") ;;;
  (* the installation, lines 121-156 *)
  let! dir_exists := st_gets (path_exists os tsserver_ls_dir) in
  (if dir_exists
   then st_ret tt
   else
     sys_do (makedirs os tsserver_ls_dir) ;;;
     sys_do (chmod os tsserver_ls_dir) ;;;
     let! dependencies := st_lift (py_iter runtime_dependencies) in
     st_for dependencies (install_dependency os tsserver_ls_dir)) ;;;
  (* the executable, lines 158-170 *)
  let tsserver_executable :=
    path_join os tsserver_ls_dir ["node_modules"; ".bin"; "typescript-language-server"] in
  let! found := st_gets (path_exists os tsserver_executable) in
  if found
  then st_ret (tsserver_executable +:+ " --stdio")
  else st_raise (FileNotFoundError executable_not_found_msg).

(** The path of the executable that the last step looks for. *)
Definition tsserver_executable_path {fs} (os : os_api fs) : string :=
  path_join os (path_join os (path_join os "/tmp" [EmptyString]) ["static"; "ts-lsp"])
    ["node_modules"; ".bin"; "typescript-language-server"].

(** ** [__init__], lines 34-46

    The constructor of the base class is not part of the sources; it is
    taken to store what it is given.  The new [server_ready] event is unset,
    as every event of a session that has not started. *)
Definition __init__ {fs} (os : os_api fs) (repository_root_path : string)
    : M fs TypeScriptLanguageServer :=
  let! ts_lsp_executable_path := setup_runtime_dependencies os in
  st_ret {| repository_root_path := repository_root_path;
            process_launch_info :=
              {| cmd := ts_lsp_executable_path; cwd := repository_root_path |};
            language_id := "typescript" |}.

(** ** [start_server], lines 196-265 *)

(** The server handle [self.server] and the base class's [start_server],
    neither of which is part of the sources.  An awaited call completes,
    raises or never completes; the base class's context manager is given by
    what entering and leaving it do, and it does not swallow an exception of
    its block. *)
Record server_api := {
  (** [await self.server.start()] *)
  server_start : outcome unit;
  (** [await self.server.send.initialize(params)] *)
  send_initialize : pyval -> outcome pyval;
  (** [self.server.notify.initialized(params)] *)
  notify_initialized : pyval -> result unit;
  (** [await self.server.shutdown()] *)
  server_shutdown : outcome unit;
  (** [await self.server.stop()] *)
  server_stop : outcome unit;
  (** entering [super().start_server()] *)
  super_enter : outcome unit;
  (** leaving it, normally or with the exception of the block *)
  super_exit : option exn -> outcome unit
}.

(** [async with super().start_server(): block] *)
Definition with_super_start_server {A} (srv : server_api) (block : M session A)
    : M session A :=
  st_with (await EvSuperEnter (super_enter srv))
          (fun exc => await (EvSuperExit exc) (super_exit srv exc))
          block.

(** The body of the generator.  [yield_] is what happens at [yield self]:
    the generator is suspended, the [async with] block of the caller runs on
    the session, and the generator is resumed, normally when the block
    ended normally, with the block's exception raised at the [yield] when it
    did not ([contextlib.asynccontextmanager]). *)
Definition start_server {fs} (os : os_api fs) (srv : server_api)
    (self : TypeScriptLanguageServer) (yield_ : M session unit) : M session unit :=
  on_request "client/registerCapability" cb_register_capability_handler ;;;
  on_notification "window/logMessage" cb_window_log_message ;;;
  on_request "workspace/executeClientCommand" cb_execute_client_command_handler ;;;
  on_notification "$/progress" cb_do_nothing ;;;
  on_notification "textDocument/publishDiagnostics" cb_do_nothing ;;;
  with_super_start_server srv (
    log "Starting TypeScript server process" ;;;
    await EvServerStart (server_start srv) ;;;
    let! initialize_params :=
      st_lift (_get_initialize_params os (repository_root_path self)) in
    log "Sending initialize request from LSP client to LSP server and awaiting response" ;;;
    let! init_response :=
      await (EvInitialize initialize_params) (send_initialize srv initialize_params) in
    st_lift (check_capabilities init_response) ;;;
    notify (EvInitialized (PDict [])) (notify_initialized srv (PDict [])) ;;;
    st_modify set_completions_available ;;;
    st_modify set_server_ready ;;;
    event_wait server_ready ;;;
    yield_ ;;;
    await EvShutdown (server_shutdown srv) ;;;
    await EvStop (server_stop srv)).

(** The five registrations with which [start_server] begins, as calls. *)
Definition registration_events : list event :=
  [EvOnRequest "client/registerCapability";
   EvOnNotification "window/logMessage";
   EvOnRequest "workspace/executeClientCommand";
   EvOnNotification "$/progress";
   EvOnNotification "textDocument/publishDiagnostics"].

(** The same, as registry entries. *)
Definition baseline_handlers : list (string * HandlerEntry) :=
  [("client/registerCapability",
    {| handler := cb_register_capability_handler; expects_response := true |});
   ("window/logMessage",
    {| handler := cb_window_log_message; expects_response := false |});
   ("workspace/executeClientCommand",
    {| handler := cb_execute_client_command_handler; expects_response := true |});
   ("$/progress",
    {| handler := cb_do_nothing; expects_response := false |});
   ("textDocument/publishDiagnostics",
    {| handler := cb_do_nothing; expects_response := false |})].

(** The registry after the five registrations. *)
Definition register_baseline (h : gmap string HandlerEntry) : gmap string HandlerEntry :=
  <["textDocument/publishDiagnostics" :=
      {| handler := cb_do_nothing; expects_response := false |}]>
  (<["$/progress" := {| handler := cb_do_nothing; expects_response := false |}]>
  (<["workspace/executeClientCommand" :=
      {| handler := cb_execute_client_command_handler; expects_response := true |}]>
  (<["window/logMessage" :=
      {| handler := cb_window_log_message; expects_response := false |}]>
  (<["client/registerCapability" :=
      {| handler := cb_register_capability_handler; expects_response := true |}]> h)))).

(** The session at the moment of the [yield], when everything before it
    went well: the five handlers registered, both events set, and the trace
    extended by the start-up. *)
Definition session_at_yield (initialize_params : pyval) (s : session) : session :=
  {| handlers := register_baseline (handlers s);
     completions_available := true;
     server_ready := true;
     initialize_searcher_command_available := initialize_searcher_command_available s;
     trace := trace s ++ registration_events ++
       [EvSuperEnter;
        EvLog "Starting TypeScript server process";
        EvServerStart;
        EvLog "Sending initialize request from LSP client to LSP server and awaiting response";
        EvInitialize initialize_params;
        EvInitialized (PDict [])] |}.

(** What the generator does when it is resumed at the [yield] with the
    outcome of the caller's block: after a normal end the lines after the
    [yield] run, an exception of the block goes up from the [yield]; either
    way the base class's context manager is left. *)
Definition resume_after_yield (srv : server_api) (r : outcome unit * session)
    : outcome unit * session :=
  let '(o, s) := r in
  st_with (st_ret tt)
          (fun exc => await (EvSuperExit exc) (super_exit srv exc))
          (st_lift o ;;;
           await EvShutdown (server_shutdown srv) ;;;
           await EvStop (server_stop srv)) s.

(** Everything up to the [yield] went well: the base class was entered, the
    process started, the initialize parameters were built, and the server's
    response passed the capability checks. *)
Definition startup_succeeds {fs} (os : os_api fs) (srv : server_api)
    (self : TypeScriptLanguageServer) (initialize_params init_response : pyval) : Prop :=
  super_enter srv = Ok tt /\
  server_start srv = Ok tt /\
  _get_initialize_params os (repository_root_path self) = Ok initialize_params /\
  send_initialize srv initialize_params = Ok init_response /\
  check_capabilities init_response = Ok tt /\
  notify_initialized srv (PDict []) = Returns tt.

(** The capability subset the plugin expects, in the words of the
    description: a [capabilities] mapping whose text-document-sync mode
    equals 2 and whose completion provider equals the expected one, equality
    being Python's. *)
Definition capabilities_as_expected (init_response : pyval) : bool :=
  match init_response with
  | PDict r =>
      match dict_get "capabilities" r with
      | Some (PDict c) =>
          match dict_get "textDocumentSync" c, dict_get "completionProvider" c with
          | Some sync, Some provider =>
              py_eq sync (PInt 2) && py_eq provider expected_completion_provider
          | _, _ => false
          end
      | _ => false
      end
  | _ => false
  end.

(** ** A POSIX instance of the surroundings

    Concrete surroundings on which the functions can be run: [posixpath]'s
    [join] and [basename], a file system given by the list of the paths that
    exist, and an installer command that creates the executable. *)

Fixpoint ends_with_slash (s : string) : bool :=
  match s with
  | EmptyString => false
  | String ch EmptyString => Ascii.eqb ch "/"
  | String _ s' => ends_with_slash s'
  end.

Definition starts_with_slash (s : string) : bool :=
  match s with
  | String ch _ => Ascii.eqb ch "/"
  | EmptyString => false
  end.

(** [posixpath.join] *)
Definition posix_join (a : string) (rest : list string) : string :=
  fold_left (fun path b =>
    if starts_with_slash b then b
    else if String.eqb path EmptyString || ends_with_slash path then path +:+ b
    else path +:+ "/" +:+ b) rest a.

(** [posixpath.basename]: what follows the last slash. *)
Fixpoint posix_basename (s : string) : string :=
  match s with
  | EmptyString => EmptyString
  | String ch s' =>
      if Ascii.eqb ch "/" then posix_basename s'
      else match String.index 0 "/" s' with
           | Some _ => posix_basename s'
           | None => s
           end
  end.

Definition posix_as_uri (path : string) : result string :=
  if starts_with_slash path then Returns ("file://" +:+ path)
  else Raises (ValueError "relative path can't be expressed as a file URI").

Definition sample_template : pyval :=
  PDict [("_description", PStr "The parameters sent by the client when initializing the language server");
         ("processId", PStr "os.getpid()");
         ("rootPath", PStr "$rootPath");
         ("rootUri", PStr "$rootUri");
         ("capabilities", PDict []);
         ("workspaceFolders", PList [PDict [("uri", PStr "$uri"); ("name", PStr "$name")]])].

Definition sample_runtime_dependencies : pyval :=
  PDict [("_description", PStr "Used to download the runtime dependencies");
         ("runtimeDependencies",
          PList [PDict [("id", PStr "typescript-language-server");
                        ("command", PStr "npm install --prefix ./ typescript-language-server")]])].

Definition sample_module_dir : string :=
  "/usr/lib/python3/site-packages/multilspy/language_servers/typescript_language_server".

Definition sample_executable : string :=
  "/tmp/static/ts-lsp/node_modules/.bin/typescript-language-server".

(** [tools] are the programs on the PATH, [installs] tells whether the
    installer command manages to create the executable. *)
Definition sample_os (platform : PlatformId) (dir : string) (template : pyval)
    (tools : list string) (installs : bool) : os_api (list string) :=
  {| get_platform_id := Returns platform;
     platform_str := fun _ => "platform";
     platform_startswith := fun p prefix =>
       Returns (platform_in p [WIN_x64; WIN_arm64]);
     module_dir := dir;
     path_join := posix_join;
     json_load_file := fun path =>
       if String.eqb path (posix_join dir ["initialize_params.json"])
       then Returns template
       else if String.eqb path (posix_join dir ["runtime_dependencies.json"])
       then Returns sample_runtime_dependencies
       else Raises (FileNotFoundError path);
     which := fun name _ =>
       Returns (if existsb (String.eqb name) tools then Some ("/usr/bin/" +:+ name) else None);
     path_exists := fun path files => existsb (String.eqb path) files;
     makedirs := fun path files => (Returns tt, path :: files);
     chmod := fun path files => (Returns tt, files);
     current_user_name := fun _ => Returns "user";
     os_stat := fun _ _ => Returns tt;
     subprocess_run := fun _ _ files =>
       (Returns tt, if installs then sample_executable :: files else files);
     getpid := 4242;
     as_uri := posix_as_uri;
     basename := posix_basename |}.

Definition posix_os : os_api (list string) :=
  sample_os LINUX_x64 sample_module_dir sample_template ["node"; "npm"] true.

(** A server that answers [initialize] with [init_response] and completes
    every other call. *)
Definition sample_server (init_response : pyval) : server_api :=
  {| server_start := Ok tt;
     send_initialize := fun _ => Ok init_response;
     notify_initialized := fun _ => Returns tt;
     server_shutdown := Ok tt;
     server_stop := Ok tt;
     super_enter := Ok tt;
     super_exit := fun _ => Ok tt |}.

Definition capabilities_response (sync provider : pyval) : pyval :=
  PDict [("capabilities",
          PDict [("textDocumentSync", sync); ("completionProvider", provider)])].

Definition good_response : pyval :=
  capabilities_response (PInt 2) expected_completion_provider.

Definition sample_self : TypeScriptLanguageServer :=
  {| repository_root_path := "/home/user/project";
     process_launch_info :=
       {| cmd := sample_executable +:+ " --stdio"; cwd := "/home/user/project" |};
     language_id := "typescript" |}.

(** The session of an object as the constructor leaves it: nothing
    registered, no event set, and no [initialize_searcher_command_available]
    attribute. *)
Definition new_session : session :=
  {| handlers := ∅;
     completions_available := false;
     server_ready := false;
     initialize_searcher_command_available := None;
     trace := [] |}.

(** The same object once it was given the attribute, the event unset. *)
Definition session_with_searcher_event : session :=
  {| handlers := ∅;
     completions_available := false;
     server_ready := false;
     initialize_searcher_command_available := Some false;
     trace := [] |}.

(** ** The placeholders of the initialize template *)


(** The entries a well-typed [RegistrationParams] carries: a list of
    registrations, each a mapping with a [method]. *)
Definition is_registration (r : pyval) : bool :=
  match r with
  | PDict d => dict_mem "method" d
  | _ => false
  end.

(** [registration["method"] == "workspace/executeCommand"] *)
Definition registers_execute_command (r : pyval) : bool :=
  match py_getitem_key r "method" with
  | Ok m => py_eq m executeCommand
  | _ => false
  end.

(** ** Sample inputs *)

(** The initialize parameters of the POSIX instance. *)
Definition sample_initialize_params : pyval := Eval vm_compute in
  match _get_initialize_params posix_os "/home/user/project" with
  | Ok params => params
  | _ => PNone
  end.

(** A response whose text-document-sync mode is 1. *)
Definition sync_mode_one_response : pyval :=
  capabilities_response (PInt 1) expected_completion_provider.

(** A response that differs from the expected document as JSON and equals it
    under [==]: the mode is the float [2.0], [resolveProvider] is [1], and
    the provider's keys come in the other order. *)
Definition equal_by_value_response : pyval :=
  capabilities_response (PFloat (FFinite 1 1))
    (PDict [("resolveProvider", PInt 1);
            ("triggerCharacters",
             PList [PStr "."; PStr double_quote; PStr "'"; PStr "/"; PStr "@"; PStr "<"])]).


(** The parameters of a [client/registerCapability] request. *)
Definition sample_registrations : list pyval :=
  [PDict [("id", PStr "a1"); ("method", PStr "workspace/didChangeWatchedFiles")];
   PDict [("id", PStr "a2"); ("method", PStr "workspace/executeCommand")]].

(** A caller's block that raises. *)
Definition failing_block : M session unit :=
  st_raise (Exn "RuntimeError" "boom").




(** ** The assertions of [test_multilspy_ruby_rubyland]

    What the test of [tests/multilspy/test_multilspy_ruby.py] asserts of the
    two results it gets, lines 36-43 and 47-58.  The results themselves come
    from [request_definition] and [request_references], and the expected
    references from [test_sync_multilspy_ruby], none of which is part of the
    sources: the assertions are functions of the result. *)

(** [isinstance(v, list)] *)
Definition py_is_list (v : pyval) : bool :=
  match v with
  | PList _ => true
  | _ => false
  end.

(** The range the test expects of the second definition, lines 40-43. *)
Definition expected_definition_range : pyval :=
  PDict [("start", PDict [("line", PInt 0); ("character", PInt 0)]);
         ("end", PDict [("line", PInt 42); ("character", PInt 3)])].

(** Lines 36-43.  [purepath_str path] is [str(PurePath(path))]. *)
Definition definition_assertions (purepath_str : string -> string) (result : pyval)
    : outcome unit :=
  let? _ := py_assert (py_is_list result) EmptyString in
  let? n := py_len result in
  let? _ := py_assert (n =? 2) EmptyString in
  let? item := py_getitem_idx result 1 in
  let? v := py_getitem_key item "relativePath" in
  let? _ := py_assert (py_eq v (PStr (purepath_str "app/models/feed.rb"))) EmptyString in
  let? v := py_getitem_key item "range" in
  py_assert (py_eq v expected_definition_range) EmptyString.

(** The body of the loop of lines 50-52, on one item:
    [del item["uri"]; del item["absolutePath"]]. *)
Definition strip_location (item : pyval) : outcome pyval :=
  let? item := py_delitem_key item "uri" in
  py_delitem_key item "absolutePath".

(** The loop of lines 50-52 over the items of the result: the items as the
    loop leaves them, when it gets through. *)
Fixpoint strip_locations (items : list pyval) : outcome (list pyval) :=
  match items with
  | [] => Ok []
  | item :: items' =>
      let? item' := strip_location item in
      let? rest := strip_locations items' in
      Ok (item' :: rest)
  end.

(** Lines 47-58.  [assertCountEqual] is [unittest]'s, and [expected] is
    [EXPECTED_RESULT]. *)
Definition references_assertions (assertCountEqual : pyval -> pyval -> result unit)
    (expected : pyval) (result : pyval) : outcome unit :=
  let? _ := py_assert (py_is_list result) EmptyString in
  let? n := py_len result in
  let? _ := py_assert (n =? 8) EmptyString in
  let? items := py_iter result in
  let? stripped := strip_locations items in
  call (assertCountEqual (PList stripped) expected).


(** A session left by an earlier start: a handler of the plugin's user for
    some other method, and one for [$/progress]. *)
Definition used_session : session :=
  {| handlers :=
       <["$/progress" := {| handler := cb_window_log_message; expects_response := false |}]>
       (<["workspace/configuration" :=
            {| handler := cb_execute_client_command_handler; expects_response := true |}]> ∅);
     completions_available := true;
     server_ready := true;
     initialize_searcher_command_available := None;
     trace := [EvLog "earlier"] |}.

(** A server whose shutdown request fails. *)
Definition sample_server_failing_shutdown : server_api :=
  {| server_start := Ok tt;
     send_initialize := fun _ => Ok good_response;
     notify_initialized := fun _ => Returns tt;
     server_shutdown := Raise (Exn "CancelledError" EmptyString);
     server_stop := Ok tt;
     super_enter := Ok tt;
     super_exit := fun _ => Ok tt |}.

(** A server that does not answer the initialize request. *)
Definition sample_server_failing_initialize : server_api :=
  {| server_start := Ok tt;
     send_initialize := fun _ => Raise (Exn "ConnectionResetError" EmptyString);
     notify_initialized := fun _ => Returns tt;
     server_shutdown := Ok tt;
     server_stop := Ok tt;
     super_enter := Ok tt;
     super_exit := fun _ => Ok tt |}.

(** ** Auxiliary notions of the further properties *)

(** [s'] differs from [s] at most in that the
    [initialize_searcher_command_available] event got set. *)
Definition only_sets_searcher_event (s s' : session) : Prop :=
  handlers s' = handlers s /\
  completions_available s' = completions_available s /\
  server_ready s' = server_ready s /\
  trace s' = trace s /\
  (initialize_searcher_command_available s = Some true ->
   initialize_searcher_command_available s' = Some true) /\
  (initialize_searcher_command_available s = None ->
   initialize_searcher_command_available s' = None) /\
  (forall b, initialize_searcher_command_available s = Some b ->
             initialize_searcher_command_available s' = Some b \/
             initialize_searcher_command_available s' = Some true).

(** The directory the dependencies are installed in. *)
Definition tsserver_ls_dir_path {fs} (os : os_api fs) : string :=
  path_join os (path_join os "/tmp" [EmptyString]) ["static"; "ts-lsp"].

(** The platform is supported, the runtime dependencies load as [deps], and
    the module is under [site-packages]: the first three blocks of the
    set-up pass. *)
Definition setup_checks_pass {fs} (os : os_api fs) (deps : pyval) : Prop :=
  exists p d n,
    get_platform_id os = Returns p /\
    platform_in p valid_platforms = true /\
    json_load_file os (path_join os (module_dir os) ["runtime_dependencies.json"])
      = Returns (PDict d) /\
    py_get_default (PDict (dict_remove "_description" d)) "runtimeDependencies" (PList [])
      = Ok deps /\
    py_len deps = Ok n /\
    str_find (module_dir os) "site-packages/" <> -1.

(** A location that carries both [uri] and [absolutePath]. *)
Definition has_paths (item : pyval) : bool :=
  match item with
  | PDict d => dict_mem "uri" d && dict_mem "absolutePath" d
  | _ => false
  end.

(** The location without these two fields. *)
Definition without_paths (item : pyval) : pyval :=
  match item with
  | PDict d => PDict (dict_remove "absolutePath" (dict_remove "uri" d))
  | _ => item
  end.

(** The surroundings of [posix_os], except that every install command
    fails. *)
Definition failing_install_os : os_api (list string) :=
  {| get_platform_id := get_platform_id posix_os;
     platform_str := platform_str posix_os;
     platform_startswith := platform_startswith posix_os;
     module_dir := module_dir posix_os;
     path_join := path_join posix_os;
     json_load_file := json_load_file posix_os;
     which := which posix_os;
     path_exists := path_exists posix_os;
     makedirs := makedirs posix_os;
     chmod := chmod posix_os;
     current_user_name := current_user_name posix_os;
     os_stat := os_stat posix_os;
     subprocess_run := fun _ _ files =>
       (Raises (Exn "CalledProcessError" "returned non-zero exit status 1"), files);
     getpid := getpid posix_os;
     as_uri := as_uri posix_os;
     basename := basename posix_os |}.

(** The one runtime dependency of [sample_runtime_dependencies]. *)
Definition sample_dependency : pyval :=
  PDict [("id", PStr "typescript-language-server");
         ("command", PStr "npm install --prefix ./ typescript-language-server")].

(** The entries of [sample_template]. *)
Definition sample_template_entries : list (string * pyval) :=
  [("_description", PStr "The parameters sent by the client when initializing the language server");
   ("processId", PStr "os.getpid()");
   ("rootPath", PStr "$rootPath");
   ("rootUri", PStr "$rootUri");
   ("capabilities", PDict []);
   ("workspaceFolders", PList [PDict [("uri", PStr "$uri"); ("name", PStr "$name")]])].

(** A template whose list of workspace folders is empty. *)
Definition template_without_folders : list (string * pyval) :=
  [("_description", PStr "template");
   ("rootPath", PStr "$rootPath");
   ("rootUri", PStr "$rootUri");
   ("workspaceFolders", PList [])].

(** Registrations of which the second lacks its [method]. *)
Definition malformed_registrations : list pyval :=
  [PDict [("id", PStr "b1"); ("method", PStr "workspace/executeCommand")];
   PDict [("id", PStr "b2")];
   PDict [("id", PStr "b3"); ("method", PStr "workspace/didChangeWatchedFiles")]].

(** A reference as [request_references] is expected to return it. *)
Definition sample_reference (line : Z) : pyval :=
  PDict [("uri", PStr "file:///repo/app/models/feed.rb");
         ("range", PDict [("start", PDict [("line", PInt line); ("character", PInt 0)]);
                          ("end", PDict [("line", PInt line); ("character", PInt 4)])]);
         ("absolutePath", PStr "/repo/app/models/feed.rb");
         ("relativePath", PStr "app/models/feed.rb")].

Definition sample_references : list pyval :=
  map sample_reference [1; 2; 3; 5; 8; 13; 21; 34].

(** A comparison that passes on equal lists only, in place of
    [assertCountEqual]. *)
Definition sample_assert_equal (actual expected : pyval) : result unit :=
  if py_eq actual expected then Returns tt else Raises (AssertionError EmptyString).

(** ** Further sample surroundings *)


(** A response whose capabilities have the expected mode and no completion
    provider. *)
Definition no_completion_provider_response : pyval :=
  PDict [("capabilities", PDict [("textDocumentSync", PInt 2)])].

(** The parameters of a [client/registerCapability] request without a
    [workspace/executeCommand] registration. *)
Definition other_registrations : list pyval :=
  [PDict [("id", PStr "c1"); ("method", PStr "workspace/didChangeWatchedFiles")];
   PDict [("id", PStr "c2"); ("method", PStr "textDocument/formatting")]].

(** ** Locations of the protocol *)


(** * Properties *)

(** ** Dictionaries *)

Section DictFacts.
Context {A : Type}.
Implicit Types (k : string) (d : list (string * A)).

Lemma dict_get_set_eq k (v : A) d : dict_get k (dict_set k v d) = Some v.
Proof.
  induction d as [|[k' v'] d IH]; simpl.
  - by rewrite String.eqb_refl.
  - destruct (String.eqb k k') eqn:E; simpl; rewrite ?String.eqb_refl, ?E; auto.
Qed.

Lemma dict_get_set_ne k k' (v : A) d :
  k <> k' -> dict_get k' (dict_set k v d) = dict_get k' d.
Proof.
  intros Hne. induction d as [|[k0 v0] d IH]; simpl.
  - destruct (String.eqb_spec k' k); congruence.
  - destruct (String.eqb_spec k k0) as [->|]; simpl.
    + destruct (String.eqb_spec k' k0); congruence.
    + destruct (String.eqb_spec k' k0); auto.
Qed.

Lemma dict_get_remove_eq k d : dict_get k (dict_remove k d) = None.
Proof.
  induction d as [|[k' v'] d IH]; simpl; auto.
  destruct (String.eqb k k') eqn:E; simpl; rewrite ?E; auto.
Qed.

Lemma dict_get_remove_ne k k' d :
  k <> k' -> dict_get k' (dict_remove k d) = dict_get k' d.
Proof.
  intros Hne. induction d as [|[k0 v0] d IH]; simpl; auto.
  destruct (String.eqb_spec k k0) as [->|]; simpl.
  - destruct (String.eqb_spec k' k0); congruence.
  - destruct (String.eqb_spec k' k0); auto.
Qed.
End DictFacts.

(** [==] against a string holds for that string only. *)
Lemma py_eq_str v s : py_eq v (PStr s) = true <-> v = PStr s.
Proof.
  destruct v; simpl; try (split; discriminate).
  destruct (String.eqb_spec s0 s); split; congruence.
Qed.


(** ** [_get_initialize_params] *)

Lemma py_getitem_idx_first x l : py_getitem_idx (PList (x :: l)) 0 = Ok x.
Proof.
  unfold py_getitem_idx, seq_index.
  change (0 <? 0) with false. cbv iota.
  replace (0 <? Z.of_nat (length (x :: l))) with true
    by (symmetry; apply Z.ltb_lt; simpl length; lia).
  reflexivity.
Qed.

Lemma list_store_first v x l : list_store 0 v (x :: l) = v :: l.
Proof. reflexivity. Qed.

Ltac dict_simpl :=
  repeat first
    [ rewrite dict_get_set_eq
    | rewrite dict_get_set_ne by discriminate
    | rewrite dict_get_remove_eq
    | rewrite dict_get_remove_ne by discriminate ].

Ltac py_step :=
  first
    [ progress cbn [obind call py_assert py_setitem_key py_getitem_key py_delitem_key]
    | rewrite list_store_first
    | progress dict_simpl
    | rewrite py_getitem_idx_first
    | progress simpl (py_eq (PStr _) (PStr _)) ].

(** C2.  For every repository path that has a file URI (an absolute path),
    and the static template as the module ships it (with its [_description]
    and its four placeholders), [_get_initialize_params] returns the template
    with [processId] set to the process id, [rootPath] to the path, [rootUri]
    to the file URI of the path, the first workspace folder's [uri] to that
    URI and its [name] to the basename of the path; [_description] is gone,
    and every other key of the template and of the folder, and every other
    folder, is as it was. *)
Theorem get_initialize_params_substitutes {fs} (os : os_api fs)
    (repository_absolute_path uri : string)
    (d folder : list (string * pyval)) (folders : list pyval) :
  json_load_file os (path_join os (module_dir os) ["initialize_params.json"])
    = Returns (PDict d) ->
  dict_mem "_description" d = true ->
  dict_get "rootPath" d = Some (PStr "$rootPath") ->
  dict_get "rootUri" d = Some (PStr "$rootUri") ->
  dict_get "workspaceFolders" d = Some (PList (PDict folder :: folders)) ->
  dict_get "uri" folder = Some (PStr "$uri") ->
  dict_get "name" folder = Some (PStr "$name") ->
  as_uri os repository_absolute_path = Returns uri ->
  exists d' folder',
    _get_initialize_params os repository_absolute_path = Ok (PDict d') /\
    dict_get "processId" d' = Some (PInt (getpid os)) /\
    dict_get "rootPath" d' = Some (PStr repository_absolute_path) /\
    dict_get "rootUri" d' = Some (PStr uri) /\
    dict_get "workspaceFolders" d' = Some (PList (PDict folder' :: folders)) /\
    dict_get "uri" folder' = Some (PStr uri) /\
    dict_get "name" folder' = Some (PStr (basename os repository_absolute_path)) /\
    (forall k, k <> "uri" -> k <> "name" -> dict_get k folder' = dict_get k folder) /\
    dict_get "_description" d' = None /\
    (forall k, k <> "_description" -> k <> "processId" -> k <> "rootPath" ->
               k <> "rootUri" -> k <> "workspaceFolders" ->
               dict_get k d' = dict_get k d).
Proof.
  intros Hload Hdesc Hpath Huri Hfolders Hfuri Hfname Has_uri.
  eexists _, (dict_set "name" (PStr (basename os repository_absolute_path))
                (dict_set "uri" (PStr uri) folder)).
  split.
  - unfold _get_initialize_params, set_in_first_workspace_folder.
    rewrite Hload, Has_uri. cbn [call obind py_delitem_key]. rewrite Hdesc.
    repeat (py_step || rewrite ?Hpath, ?Huri, ?Hfolders, ?Hfuri, ?Hfname).
    reflexivity.
  - repeat split; dict_simpl; auto.
    + intros k H1 H2. by rewrite !dict_get_set_ne by congruence.
    + intros k H1 H2 H3 H4 H5.
      rewrite !dict_get_set_ne by congruence. by rewrite dict_get_remove_ne by congruence.
Qed.




Lemma get_initialize_params_substitutes_witness :
  exists d',
    _get_initialize_params posix_os "/home/user/project" = Ok (PDict d') /\
    dict_get "processId" d' = Some (PInt 4242) /\
    dict_get "rootUri" d' = Some (PStr "file:///home/user/project") /\
    dict_get "_description" d' = None /\
    dict_get "capabilities" d' = Some (PDict []).
Proof.
  destruct (get_initialize_params_substitutes posix_os
              "/home/user/project" "file:///home/user/project"
              [("_description", PStr "The parameters sent by the client when initializing the language server");
               ("processId", PStr "os.getpid()");
               ("rootPath", PStr "$rootPath");
               ("rootUri", PStr "$rootUri");
               ("capabilities", PDict []);
               ("workspaceFolders", PList [PDict [("uri", PStr "$uri"); ("name", PStr "$name")]])]
              [("uri", PStr "$uri"); ("name", PStr "$name")] []
              eq_refl eq_refl eq_refl eq_refl eq_refl eq_refl eq_refl eq_refl)
    as (d' & folder' & Hrun & Hpid & _ & Huri & _ & _ & _ & _ & Hdesc & Hother).
  exists d'. split; [exact Hrun|]. split; [exact Hpid|]. split; [exact Huri|].
  split; [exact Hdesc|]. rewrite Hother by discriminate. reflexivity.
Defined.


(** ** [register_capability_handler] *)

Lemma st_for_app {S A} (body : A -> M S unit) (xs ys : list A) (s : S) :
  st_for (xs ++ ys) body s
  = match st_for xs body s with
    | (Ok _, s1) => st_for ys body s1
    | other => other
    end.
Proof.
  revert s. induction xs as [|x xs IH]; intros s; [reflexivity|].
  cbn [app st_for]. unfold st_bind.
  destruct (body x s) as [[[]|e|] s1]; auto.
Qed.

Lemma st_for_cons {S A} (body : A -> M S unit) (x : A) (xs : list A) (s : S) :
  st_for (x :: xs) body s
  = match body x s with
    | (Ok _, s1) => st_for xs body s1
    | other => other
    end.
Proof. cbn [st_for]. unfold st_bind. by destruct (body x s) as [[[]|e|] s1]. Qed.

(** The handler up to its loop. *)
Lemma register_capability_handler_loop
    (d : list (string * pyval)) (regs : list pyval) (s : session) :
  dict_get "registrations" d = Some (PList regs) ->
  register_capability_handler (PDict d) s
  = match st_for regs registration_body s with
    | (Ok _, s1) => (Ok PNone, s1)
    | (Raise e, s1) => (Raise e, s1)
    | (Hang, s1) => (Hang, s1)
    end.
Proof.
  intros Hregs. unfold register_capability_handler.
  unfold st_bind at 1. unfold st_lift at 1. cbn [py_contains].
  unfold dict_mem. rewrite Hregs.
  unfold st_bind at 1. unfold st_lift at 1. cbn [py_assert].
  unfold st_bind at 1. unfold st_lift at 1. cbn [py_getitem_key]. rewrite Hregs.
  unfold st_bind at 1. unfold st_lift at 1. cbn [py_iter].
  unfold st_bind at 1.
  by destruct (st_for regs _ s) as [[[]|e|] s1].
Qed.

(** One turn of the loop on a registration that carries a [method]. *)
Lemma registration_body_step (r : pyval) (s : session) :
  is_registration r = true ->
  registration_body r s
  = if registers_execute_command r
    then initialize_searcher_command_available_set s
    else (Ok tt, s).
Proof.
  destruct r as [| | | | | |d]; try discriminate.
  unfold is_registration, dict_mem, registers_execute_command, registration_body.
  unfold st_bind, st_lift. cbn [py_getitem_key].
  destruct (dict_get "method" d) as [m|]; [|discriminate]. intros _.
  by destruct (py_eq m executeCommand).
Qed.

(** One turn of the loop on a registration that is
    [workspace/executeCommand]. *)
Lemma registration_body_execute_command (r : pyval) (s : session) :
  registers_execute_command r = true ->
  registration_body r s = initialize_searcher_command_available_set s.
Proof.
  unfold registers_execute_command, registration_body, st_bind, st_lift.
  destruct (py_getitem_key r "method") as [m|e|]; try discriminate.
  by intros ->.
Qed.

(** The loop over registrations none of which is [workspace/executeCommand]
    changes nothing, on every object. *)
Lemma registration_loop_no_match (regs : list pyval) (s : session) :
  forallb is_registration regs = true ->
  existsb registers_execute_command regs = false ->
  st_for regs registration_body s = (Ok tt, s).
Proof.
  induction regs as [|r regs IH]; intros Hall Hnone; [reflexivity|].
  simpl in Hall, Hnone. apply andb_prop in Hall as [Hr Hall].
  apply orb_false_elim in Hnone as [Hnr Hnone].
  rewrite st_for_cons, (registration_body_step r s Hr), Hnr. by apply IH.
Qed.

(** The loop on an object that has the event. *)
Lemma registration_loop (regs : list pyval) (s : session) (b : bool) :
  initialize_searcher_command_available s = Some b ->
  forallb is_registration regs = true ->
  st_for regs registration_body s
  = (Ok tt,
     if existsb registers_execute_command regs
     then set_initialize_searcher_command_available s else s).
Proof.
  revert s b. induction regs as [|r regs IH]; intros s b Hs Hall; [reflexivity|].
  simpl in Hall. apply andb_prop in Hall as [Hr Hall].
  rewrite st_for_cons, (registration_body_step r s Hr). cbn [existsb].
  destruct (registers_execute_command r); cbn [orb].
  - unfold initialize_searcher_command_available_set. rewrite Hs.
    rewrite (IH _ true) by (assumption || reflexivity).
    by destruct (existsb registers_execute_command regs).
  - by apply (IH s b).
Qed.

(** The loop on an object that has no such event: the first
    [workspace/executeCommand] registration ends it. *)
Lemma registration_loop_without_event (regs : list pyval) (s : session) :
  initialize_searcher_command_available s = None ->
  forallb is_registration regs = true ->
  st_for regs registration_body s
  = (if existsb registers_execute_command regs
     then Raise (AttributeError no_searcher_event_msg) else Ok tt, s).
Proof.
  induction regs as [|r regs IH]; intros Hs Hall; [reflexivity|].
  simpl in Hall. apply andb_prop in Hall as [Hr Hall].
  rewrite st_for_cons, (registration_body_step r s Hr). cbn [existsb].
  destruct (registers_execute_command r); cbn [orb].
  - unfold initialize_searcher_command_available_set. by rewrite Hs.
  - by apply IH.
Qed.

(** C7.  The handler registered for [client/registerCapability] is
    [register_capability_handler].  On a request whose registrations reach
    an entry with the method [workspace/executeCommand] (the entries before
    it carry another [method]), line 215 is run.  On the object as the
    constructor builds it, which has no
    [initialize_searcher_command_available] attribute, that line raises
    [AttributeError]: the handler does not return and no event gets set.
    Only on an object that was given the attribute does the handler set the
    event and return (the entries after that one carrying a [method]). *)
Theorem register_capability_handler_needs_searcher_event
    (d : list (string * pyval)) (before after : list pyval) (r : pyval)
    (s : session) :
  dict_get "registrations" d = Some (PList (before ++ r :: after)) ->
  forallb is_registration before = true ->
  existsb registers_execute_command before = false ->
  registers_execute_command r = true ->
  (forall h, register_baseline h !! "client/registerCapability"
             = Some {| handler := cb_register_capability_handler;
                       expects_response := true |}) /\
  run_callback cb_register_capability_handler = register_capability_handler /\
  match initialize_searcher_command_available s with
  | None =>
      register_capability_handler (PDict d) s
      = (Raise (AttributeError no_searcher_event_msg), s)
  | Some _ =>
      forallb is_registration after = true ->
      register_capability_handler (PDict d) s
      = (Ok PNone, set_initialize_searcher_command_available s)
  end.
Proof.
  intros Hregs Hbefore Hnone Hr. split; [|split; [reflexivity|]].
  - intros h. unfold register_baseline.
    rewrite !lookup_insert_ne by discriminate. apply lookup_insert_eq.
  - rewrite (register_capability_handler_loop d _ s Hregs), st_for_app.
    rewrite registration_loop_no_match by assumption.
    rewrite st_for_cons, registration_body_execute_command by assumption.
    unfold initialize_searcher_command_available_set.
    destruct (initialize_searcher_command_available s) as [b|] eqn:Hs;
      [|reflexivity].
    intros Hafter.
    rewrite (registration_loop after _ true) by (assumption || reflexivity).
    by destruct (existsb registers_execute_command after).
Qed.

(** ** [start_server] *)

Lemma server_ready_after_set s : server_ready (set_server_ready s) = true.
Proof. reflexivity. Qed.

(** Runs the generator symbolically, using the equations on the server
    handle that are in the context. *)
Ltac run_generator :=
  unfold start_server, with_super_start_server, resume_after_yield, st_with,
    on_request, on_notification, log, await, notify, event_wait;
  cbv beta iota delta [st_bind st_modify st_lift st_ret st_raise];
  repeat first
    [ match goal with
      | H : _ = _ |- _ => rewrite H
      end
    | rewrite server_ready_after_set
    | progress cbv beta iota delta [st_bind st_modify st_lift st_ret st_raise call] ].

(** The trace of a session built by successive [emit]s, as the old trace
    followed by the new events. *)
Ltac trace_normal :=
  cbn [trace emit with_handlers set_completions_available set_server_ready
       session_at_yield];
  rewrite <- ?app_assoc; cbn [app registration_events]; try reflexivity.

Ltac fail_case :=
  left; eexists _, _, _; split; [intros; run_generator; reflexivity|];
  repeat split; try discriminate; trace_normal;
  try (simpl; discriminate); try (intros _; eauto 6).

(** When everything up to the [yield] goes well, the caller's block runs on
    [session_at_yield], and the generator is resumed with its outcome. *)
Lemma start_server_reaches_yield {fs} (os : os_api fs) (srv : server_api)
    (self : TypeScriptLanguageServer) (p r : pyval) (s : session)
    (yield_ : M session unit) :
  startup_succeeds os srv self p r ->
  start_server os srv self yield_ s
  = resume_after_yield srv (yield_ (session_at_yield p s)).
Proof.
  intros (Henter & Hstart & Hparams & Hinit & Hcheck & Hnotify).
  run_generator.
  match goal with
  | |- context [yield_ ?x] =>
      replace x with (session_at_yield p s)
        by (unfold session_at_yield, set_server_ready, set_completions_available;
            cbn [handlers completions_available server_ready
                 initialize_searcher_command_available trace emit with_handlers];
            f_equal; rewrite <- !app_assoc; reflexivity)
  end.
  by destruct (yield_ (session_at_yield p s)) as [[] ?].
Qed.

Lemma start_server_runs {fs} (os : os_api fs) (srv : server_api)
    (self : TypeScriptLanguageServer) (s : session) :
  (exists o s1 evs,
      (forall yield_, start_server os srv self yield_ s = (o, s1)) /\
      (forall u, o <> Ok u) /\
      handlers s1 = register_baseline (handlers s) /\
      completions_available s1 = completions_available s /\
      server_ready s1 = server_ready s /\
      initialize_searcher_command_available s1
        = initialize_searcher_command_available s /\
      trace s1 = trace s ++ registration_events ++ evs /\
      existsb is_shutdown evs = false /\
      existsb is_stop evs = false /\
      (existsb is_initialized evs = true ->
       exists p r,
         _get_initialize_params os (repository_root_path self) = Ok p /\
         send_initialize srv p = Ok r /\
         check_capabilities r = Ok tt))
  \/
  (exists p r,
      startup_succeeds os srv self p r /\
      forall yield_,
        start_server os srv self yield_ s
        = resume_after_yield srv (yield_ (session_at_yield p s))).
Proof.
  destruct (super_enter srv) as [[]|e|] eqn:Henter; [|fail_case..].
  destruct (server_start srv) as [[]|e|] eqn:Hstart;
    [|destruct (super_exit srv (Some e)) as [[]|e'|] eqn:Hexit; fail_case|fail_case].
  destruct (_get_initialize_params os (repository_root_path self)) as [p|e|] eqn:Hparams;
    [|destruct (super_exit srv (Some e)) as [[]|e'|] eqn:Hexit; fail_case|fail_case].
  destruct (send_initialize srv p) as [r|e|] eqn:Hinit;
    [|destruct (super_exit srv (Some e)) as [[]|e'|] eqn:Hexit; fail_case|fail_case].
  destruct (check_capabilities r) as [[]|e|] eqn:Hcheck;
    [|destruct (super_exit srv (Some e)) as [[]|e'|] eqn:Hexit; fail_case|fail_case].
  destruct (notify_initialized srv (PDict [])) as [[]|e] eqn:Hnotify;
    [|destruct (super_exit srv (Some e)) as [[]|e'|] eqn:Hexit; fail_case].
  right. exists p, r. split; [by repeat split|].
  intros yield_. apply (start_server_reaches_yield os srv self p r). by repeat split.
Qed.

(** [==] against the integer 2 holds for the [int] 2 and for a [float] of
    value 2 only. *)
Lemma py_eq_two v :
  py_eq v (PInt 2) = true <->
  v = PInt 2 \/ exists f, v = PFloat f /\ float_eq_int f 2 = true.
Proof.
  destruct v; simpl; split; try discriminate;
    try (intros [H|(f' & H & _)]; discriminate).
  - by destruct b.
  - intros H%Z.eqb_eq. left. congruence.
  - intros [[= ->]|(f' & [=] & _)]. reflexivity.
  - intros H. right. eauto.
  - intros [[=]|(f' & [= <-] & H)]. exact H.
Qed.

(** [==] against a list of strings holds for that list only. *)
Lemma py_eq_str_list v (l : list string) :
  py_eq v (PList (map PStr l)) = true <-> v = PList (map PStr l).
Proof.
  destruct v as [| | | | |l0|]; simpl; try (split; discriminate).
  revert l. induction l0 as [|x l0 IH]; intros [|c l]; simpl;
    try (split; [discriminate|intros [=]]); [tauto|].
  split.
  - intros [Hx Hl]%andb_prop. apply py_eq_str in Hx as ->.
    apply IH in Hl. by injection Hl as ->.
  - intros [= -> Hl]. simpl. rewrite String.eqb_refl. simpl.
    apply IH. by rewrite Hl.
Qed.

(** What a completion provider that passes the third check looks like: a
    mapping with two entries, each of them either [triggerCharacters] with
    exactly the six characters or [resolveProvider] with a value [== True]. *)
Lemma py_eq_expected_completion_provider v :
  py_eq v expected_completion_provider = true ->
  exists d,
    v = PDict d /\ length d = 2%nat /\
    forall k x, In (k, x) d ->
      (k = "triggerCharacters" /\
       x = PList [PStr "."; PStr double_quote; PStr "'"; PStr "/"; PStr "@"; PStr "<"]) \/
      (k = "resolveProvider" /\ py_eq x (PBool true) = true).
Proof.
  destruct v as [| | | | | |d]; try discriminate.
  unfold expected_completion_provider. cbn [py_eq].
  intros [Hlen Hall]%andb_prop. exists d. split; [reflexivity|].
  split; [by apply Nat.eqb_eq in Hlen|].
  clear Hlen. induction d as [|[k0 x0] d IH]; intros k x [].
  - injection H as -> ->. apply andb_prop in Hall as [Hx _]. revert Hx.
    cbn [dict_get].
    destruct (String.eqb_spec k "triggerCharacters") as [->|_].
    + intros Hx. left. split; [reflexivity|].
      by apply (py_eq_str_list x ["."; double_quote; "'"; "/"; "@"; "<"]).
    + destruct (String.eqb_spec k "resolveProvider") as [->|_]; [|discriminate].
      intros Hx. by right.
  - apply andb_prop in Hall as [_ Hall]. by apply IH.
Qed.

(** The checks of lines 248-253 pass exactly on the responses that carry the
    expected capability subset, and otherwise raise one of three errors. *)
Lemma check_capabilities_cases (r : pyval) :
  if capabilities_as_expected r
  then check_capabilities r = Ok tt
  else exists e, check_capabilities r = Raise e /\
                 In (exn_class e) ["AssertionError"; "KeyError"; "TypeError"].
Proof.
  unfold capabilities_as_expected, check_capabilities.
  destruct r as [| | | | | |rd];
    try (eexists; split; [reflexivity|simpl; tauto]).
  cbn [py_getitem_key].
  destruct (dict_get "capabilities" rd) as [caps|];
    [|eexists; split; [reflexivity|simpl; tauto]].
  cbn [obind].
  destruct caps as [| | | | | |c];
    try (eexists; split; [reflexivity|simpl; tauto]).
  cbn [py_getitem_key py_contains]. unfold dict_mem.
  destruct (dict_get "textDocumentSync" c) as [sync|];
    [|eexists; split; [reflexivity|simpl; tauto]].
  cbn [obind].
  destruct (py_eq sync (PInt 2)); cbn [py_assert obind andb];
    [|destruct (dict_get "completionProvider" c);
      eexists; split; try reflexivity; simpl; tauto].
  destruct (dict_get "completionProvider" c) as [provider|]; cbn [py_assert obind];
    [|eexists; split; [reflexivity|simpl; tauto]].
  destruct (py_eq provider expected_completion_provider);
    [reflexivity|eexists; split; [reflexivity|simpl; tauto]].
Qed.

Lemma check_capabilities_passes (r : pyval) :
  check_capabilities r = Ok tt <-> capabilities_as_expected r = true.
Proof.
  pose proof (check_capabilities_cases r) as H.
  destruct (capabilities_as_expected r); split; auto; try discriminate.
  destruct H as (e & -> & _). discriminate.
Qed.

(** The error of the checks on a response that does not carry the expected
    capability subset: the [KeyError] of the subscript when [capabilities]
    or [textDocumentSync] is missing, [TypeError] when the response or its
    [capabilities] is no mapping, and otherwise the [AssertionError] of one
    of the three [assert]s, a missing [completionProvider] included. *)
Lemma check_capabilities_error (r : pyval) :
  capabilities_as_expected r = false ->
  exists e,
    check_capabilities r = Raise e /\
    match r with
    | PDict rd =>
        match dict_get "capabilities" rd with
        | Some (PDict c) =>
            match dict_get "textDocumentSync" c with
            | Some _ => e = AssertionError EmptyString
            | None => e = KeyError "textDocumentSync"
            end
        | Some _ => exn_class e = "TypeError"
        | None => e = KeyError "capabilities"
        end
    | _ => exn_class e = "TypeError"
    end.
Proof.
  unfold capabilities_as_expected, check_capabilities.
  destruct r as [| | | | | |rd]; try (intros _; eexists; split; reflexivity).
  cbn [py_getitem_key].
  destruct (dict_get "capabilities" rd) as [caps|];
    [|intros _; eexists; split; reflexivity].
  cbn [obind].
  destruct caps as [| | | | | |c]; try (intros _; eexists; split; reflexivity).
  cbn [py_getitem_key py_contains]. unfold dict_mem.
  destruct (dict_get "textDocumentSync" c) as [sync|];
    [|intros _; eexists; split; reflexivity].
  cbn [obind].
  destruct (py_eq sync (PInt 2)); cbn [py_assert obind andb];
    [|intros _; destruct (dict_get "completionProvider" c);
      eexists; split; reflexivity].
  destruct (dict_get "completionProvider" c) as [provider|]; cbn [py_assert obind];
    [|intros _; eexists; split; reflexivity].
  destruct (py_eq provider expected_completion_provider);
    [discriminate|intros _; eexists; split; reflexivity].
Qed.

(** C1, as amended.  Whenever the initialize response arrives (the base
    class's context was entered, the process started, the parameters built)
    and does not carry the expected capability subset (a [capabilities]
    mapping with text-document-sync mode [== 2] and a completion provider
    [==] the expected one), the checks raise an error [e] and start-up
    fails.  [e] is the [AssertionError] of an [assert] when the response has
    a [capabilities] mapping with a [textDocumentSync] (the mode or the
    provider differs, or there is no [completionProvider]), the [KeyError]
    of the missing key when [capabilities] or [textDocumentSync] is
    missing, and a [TypeError] when the response or its [capabilities] is no
    mapping.  [start_server] then leaves the base class's context manager
    with [e] and raises [e] (or what leaving the context manager raises, or
    it hangs there): it never reaches its [yield], whatever the caller's
    block is, sends no [initialized] notification, no shutdown request, and
    sets neither ready event. *)
Theorem start_server_rejects_unexpected_capabilities {fs} (os : os_api fs)
    (srv : server_api) (self : TypeScriptLanguageServer)
    (p r : pyval) (s : session) :
  super_enter srv = Ok tt ->
  server_start srv = Ok tt ->
  _get_initialize_params os (repository_root_path self) = Ok p ->
  send_initialize srv p = Ok r ->
  capabilities_as_expected r = false ->
  exists e s1,
    check_capabilities r = Raise e /\
    match r with
    | PDict rd =>
        match dict_get "capabilities" rd with
        | Some (PDict c) =>
            match dict_get "textDocumentSync" c with
            | Some _ => e = AssertionError EmptyString
            | None => e = KeyError "textDocumentSync"
            end
        | Some _ => exn_class e = "TypeError"
        | None => e = KeyError "capabilities"
        end
    | _ => exn_class e = "TypeError"
    end /\
    (forall yield_,
        start_server os srv self yield_ s
        = (match super_exit srv (Some e) with
           | Ok _ => Raise e
           | Raise e' => Raise e'
           | Hang => Hang
           end, s1)) /\
    handlers s1 = register_baseline (handlers s) /\
    completions_available s1 = completions_available s /\
    server_ready s1 = server_ready s /\
    trace s1 = trace s ++ registration_events ++
      [EvSuperEnter;
       EvLog "Starting TypeScript server process";
       EvServerStart;
       EvLog "Sending initialize request from LSP client to LSP server and awaiting response";
       EvInitialize p;
       EvSuperExit (Some e)].
Proof.
  intros Henter Hstart Hparams Hinit Hcaps.
  destruct (check_capabilities_error r Hcaps) as (e & Hcheck & Hwhich).
  exists e. eexists. split; [exact Hcheck|]. split; [exact Hwhich|].
  split.
  - intros yield_.
    destruct (super_exit srv (Some e)) as [[]|e'|] eqn:Hexit;
      run_generator; reflexivity.
  - repeat split; auto. trace_normal.
Qed.

(** C3, the failing path.  Once start-up went well, a caller's block that
    raises [e] (an error, or the [CancelledError] of a cancellation) makes
    [start_server] leave the base class's context manager and nothing else:
    the trace is the one the block left plus that single event, so no
    shutdown request is sent and the server process is not stopped. *)
Theorem start_server_error_exit_skips_shutdown {fs} (os : os_api fs)
    (srv : server_api) (self : TypeScriptLanguageServer)
    (p r : pyval) (s s2 : session) (yield_ : M session unit) (e : exn) :
  startup_succeeds os srv self p r ->
  yield_ (session_at_yield p s) = (Raise e, s2) ->
  exists o s3,
    start_server os srv self yield_ s = (o, s3) /\
    (forall u, o <> Ok u) /\
    trace s3 = trace s2 ++ [EvSuperExit (Some e)] /\
    existsb is_shutdown [EvSuperExit (Some e)] = false /\
    existsb is_stop [EvSuperExit (Some e)] = false.
Proof.
  intros Hok Hbody.
  rewrite (start_server_reaches_yield os srv self p r s yield_ Hok), Hbody.
  unfold resume_after_yield, st_with, await.
  cbv beta iota delta [st_bind st_modify st_lift st_ret st_raise].
  destruct (super_exit srv (Some e)) as [[]|e'|];
    eexists _, _; (split; [reflexivity|]); repeat split; discriminate.
Qed.

(** The normal path, for comparison: the shutdown request is sent and
    awaited, then the process is stopped, once each. *)
Lemma start_server_normal_exit_shuts_down {fs} (os : os_api fs)
    (srv : server_api) (self : TypeScriptLanguageServer)
    (p r : pyval) (s s2 : session) (yield_ : M session unit) :
  startup_succeeds os srv self p r ->
  yield_ (session_at_yield p s) = (Ok tt, s2) ->
  server_shutdown srv = Ok tt ->
  server_stop srv = Ok tt ->
  super_exit srv None = Ok tt ->
  exists s3,
    start_server os srv self yield_ s = (Ok tt, s3) /\
    trace s3 = trace s2 ++ [EvShutdown; EvStop; EvSuperExit None].
Proof.
  intros Hok Hbody Hshutdown Hstop Hexit.
  rewrite (start_server_reaches_yield os srv self p r s yield_ Hok), Hbody.
  unfold resume_after_yield, st_with, await.
  cbv beta iota delta [st_bind st_modify st_lift st_ret st_raise].
  rewrite Hshutdown, Hstop, Hexit. eexists. split; [reflexivity|].
  trace_normal.
Qed.

(** C4.  The five baseline methods are the first thing [start_server]
    deals with: every run continues the trace with the five registrations,
    before the base class is entered and the server process is started, and
    the registry then holds the entry of each of the five methods.  This
    holds in the runs that fail before the [yield] and in those that reach
    it, where the caller's block finds the five entries in place and the
    start of the process behind them in the trace. *)
Theorem start_server_registers_baseline_first {fs} (os : os_api fs)
    (srv : server_api) (self : TypeScriptLanguageServer) (s : session) :
  (forall method entry,
      In (method, entry) baseline_handlers ->
      register_baseline (handlers s) !! method = Some entry) /\
  existsb is_server_start registration_events = false /\
  ((exists o s1 evs,
       (forall yield_, start_server os srv self yield_ s = (o, s1)) /\
       (forall u, o <> Ok u) /\
       handlers s1 = register_baseline (handlers s) /\
       trace s1 = trace s ++ registration_events ++ evs)
   \/
   (exists p,
       (forall yield_,
           start_server os srv self yield_ s
           = resume_after_yield srv (yield_ (session_at_yield p s))) /\
       handlers (session_at_yield p s) = register_baseline (handlers s) /\
       exists before after,
         trace (session_at_yield p s)
         = trace s ++ registration_events ++ before ++ EvServerStart :: after /\
         existsb is_server_start before = false)).
Proof.
  split; [|split; [reflexivity|]].
  - intros method entry Hin. unfold register_baseline.
    simpl in Hin. destruct Hin as [[= <- <-]|[[= <- <-]|[[= <- <-]|[[= <- <-]|[[= <- <-]|[]]]]]];
      repeat (rewrite lookup_insert_ne by discriminate); apply lookup_insert_eq.
  - destruct (start_server_runs os srv self s)
      as [(o & s1 & evs & Hrun & Hnot & Hh & _ & _ & _ & Htrace & _)
         |(p & r & Hok & Hrun)].
    + left. by exists o, s1, evs.
    + right. exists p. split; [exact Hrun|]. split; [reflexivity|].
      exists [EvSuperEnter; EvLog "Starting TypeScript server process"],
        [EvLog "Sending initialize request from LSP client to LSP server and awaiting response";
         EvInitialize p; EvInitialized (PDict [])].
      split; reflexivity.
Qed.


(** ** [setup_runtime_dependencies] and [__init__] *)

(** Synchronous code returns or raises. *)
Lemma install_dependency_no_hang {fs} (os : os_api fs) dir dep (s : fs) :
  fst (install_dependency os dir dep s) <> Hang.
Proof.
  unfold install_dependency, sys_do, sys_read.
  cbv beta iota delta [st_bind st_lift st_ret].
  destruct (py_get_default dep "command" PNone) eqn:E; try discriminate.
  2:{ destruct dep; simpl in E; try discriminate. by destruct (dict_get _ _). }
  destruct (get_platform_id os); simpl; try discriminate.
  destruct (platform_startswith os a0 "win") as [[]|]; simpl; try discriminate.
  - destruct (subprocess_run os a dir s) as [[] ?]; simpl; discriminate.
  - destruct (current_user_name os s); simpl; try discriminate.
    destruct (os_stat os dir s); simpl; try discriminate.
    destruct (subprocess_run os a dir s) as [[] ?]; simpl; discriminate.
Qed.

Lemma st_for_no_hang {S A} (body : A -> M S unit) (xs : list A) (s : S) :
  (forall x s, fst (body x s) <> Hang) -> fst (st_for xs body s) <> Hang.
Proof.
  intros Hbody. revert s. induction xs as [|x xs IH]; intros s; [discriminate|].
  cbn [st_for]. unfold st_bind. specialize (Hbody x s).
  destruct (body x s) as [[] s']; simpl in *; auto; discriminate.
Qed.

Lemma install_block_no_hang {fs} (os : os_api fs) dir deps (b : bool) (s : fs) :
  fst ((if b
        then st_ret tt
        else
          sys_do (makedirs os dir) ;;;
          sys_do (chmod os dir) ;;;
          let! dependencies := st_lift (py_iter deps) in
          st_for dependencies (install_dependency os dir)) s) <> Hang.
Proof.
  destruct b; [discriminate|].
  unfold st_bind at 1. unfold sys_do at 1.
  destruct (makedirs os dir s) as [[[]|e] s1]; simpl; try discriminate.
  unfold st_bind at 1. unfold sys_do at 1.
  destruct (chmod os dir s1) as [[[]|e] s2]; simpl; try discriminate.
  unfold st_bind at 1. unfold st_lift at 1.
  destruct (py_iter deps) as [l|e|] eqn:E; simpl; try discriminate.
  - apply st_for_no_hang. intros. apply install_dependency_no_hang.
  - destruct deps; discriminate.
Qed.

Lemma setup_runtime_dependencies_cases {fs} (os : os_api fs) (s : fs) :
  match setup_runtime_dependencies os s with
  | (Ok command, s') =>
      command = tsserver_executable_path os +:+ " --stdio" /\
      (exists p, get_platform_id os = Returns p /\ platform_in p valid_platforms = true) /\
      str_find (module_dir os) "site-packages/" <> -1 /\
      (exists node, which os "node" s = Returns node /\ which_found node = true) /\
      (exists npm, which os "npm" s = Returns npm /\ which_found npm = true) /\
      path_exists os (tsserver_executable_path os) s' = true
  | (Raise e, s') => True
  | (Hang, s') => False
  end.
Proof.
  unfold setup_runtime_dependencies.
  unfold st_bind at 1. unfold st_lift at 1.
  destruct (get_platform_id os) as [p|e] eqn:Hp; cbn [call]; [|trivial].
  unfold st_bind at 1.
  destruct (platform_in p valid_platforms) eqn:Hvalid; [|exact I].
  unfold st_ret at 1. cbv beta iota.
  unfold st_bind at 1. unfold st_lift at 1.
  destruct (json_load_file os _) as [d|e]; cbn [call]; [|trivial].
  unfold st_bind at 1. unfold st_lift at 1.
  destruct (py_pop_default d "_description") as [d'|e|] eqn:Hpop; [|trivial|].
  2:{ destruct d; discriminate. }
  unfold st_bind at 1. unfold st_lift at 1.
  destruct (py_get_default d' "runtimeDependencies" (PList [])) as [deps|e|] eqn:Hget;
    [|trivial|].
  2:{ destruct d'; try discriminate. simpl in Hget. by destruct (dict_get _ _). }
  unfold st_bind at 1. unfold st_lift at 1.
  destruct (py_len deps) as [n|e|] eqn:Hlen; [|trivial|].
  2:{ destruct deps; discriminate. }
  unfold st_bind at 1.
  destruct (str_find (module_dir os) "site-packages/" =? -1) eqn:Hfind; [exact I|].
  unfold st_ret at 1. cbv beta iota.
  unfold st_bind at 1. unfold sys_read at 1.
  destruct (which os "node" s) as [node|e] eqn:Hnode; cbn [call]; [|trivial].
  unfold st_bind at 1. unfold st_lift at 1. unfold py_assert at 1.
  destruct (which_found node) eqn:Hnode_found; [|exact I].
  unfold st_bind at 1. unfold sys_read at 1.
  destruct (which os "npm" s) as [npm|e] eqn:Hnpm; cbn [call]; [|trivial].
  unfold st_bind at 1. unfold st_lift at 1. unfold py_assert at 1.
  destruct (which_found npm) eqn:Hnpm_found; [|exact I].
  unfold st_bind at 1. unfold st_gets at 1.
  unfold st_bind at 1.
  match goal with
  | |- context [(if ?b then st_ret tt else ?m) s] =>
      pose proof (install_block_no_hang os
        (path_join os (path_join os "/tmp" [EmptyString]) ["static"; "ts-lsp"])
        deps b s) as Hinstall;
      destruct ((if b then st_ret tt else m) s) as [[[]|e|] s1]
  end; [|trivial|by apply Hinstall].
  unfold st_bind at 1. unfold st_gets at 1.
  fold (tsserver_executable_path os).
  destruct (path_exists os (tsserver_executable_path os) s1) eqn:Hexe; [|exact I].
  unfold st_ret.
  repeat split; eauto.
  by apply Z.eqb_neq.
Qed.

(** The installation step of lines 121-156 leaves the file system alone
    when the directory exists. *)
Lemma setup_runtime_dependencies_state {fs} (os : os_api fs) (s : fs) :
  snd (setup_runtime_dependencies os s) = s \/
  (path_exists os (tsserver_ls_dir_path os) s = false /\
   str_find (module_dir os) "site-packages/" <> -1 /\
   (exists node, which os "node" s = Returns node /\ which_found node = true) /\
   (exists npm, which os "npm" s = Returns npm /\ which_found npm = true)).
Proof.
  unfold setup_runtime_dependencies.
  unfold st_bind at 1. unfold st_lift at 1.
  destruct (get_platform_id os) as [p|e] eqn:Hp; cbn [call]; [|by left].
  unfold st_bind at 1.
  destruct (platform_in p valid_platforms) eqn:Hvalid; [|by left].
  unfold st_ret at 1. cbv beta iota.
  unfold st_bind at 1. unfold st_lift at 1.
  destruct (json_load_file os _) as [d|e]; cbn [call]; [|by left].
  unfold st_bind at 1. unfold st_lift at 1.
  destruct (py_pop_default d "_description") as [d'|e|] eqn:Hpop; [|by left..].
  unfold st_bind at 1. unfold st_lift at 1.
  destruct (py_get_default d' "runtimeDependencies" (PList [])) as [deps|e|] eqn:Hget;
    [|by left..].
  unfold st_bind at 1. unfold st_lift at 1.
  destruct (py_len deps) as [n|e|] eqn:Hlen; [|by left..].
  unfold st_bind at 1.
  destruct (str_find (module_dir os) "site-packages/" =? -1) eqn:Hfind; [by left|].
  unfold st_ret at 1. cbv beta iota.
  unfold st_bind at 1. unfold sys_read at 1.
  destruct (which os "node" s) as [node|e] eqn:Hnode; cbn [call]; [|by left].
  unfold st_bind at 1. unfold st_lift at 1. unfold py_assert at 1.
  destruct (which_found node) eqn:Hnode_found; [|by left].
  unfold st_bind at 1. unfold sys_read at 1.
  destruct (which os "npm" s) as [npm|e] eqn:Hnpm; cbn [call]; [|by left].
  unfold st_bind at 1. unfold st_lift at 1. unfold py_assert at 1.
  destruct (which_found npm) eqn:Hnpm_found; [|by left].
  unfold st_bind at 1. unfold st_gets at 1.
  fold (tsserver_ls_dir_path os).
  destruct (path_exists os (tsserver_ls_dir_path os) s) eqn:Hdir.
  - left. unfold st_bind at 1. unfold st_ret at 1. cbv beta iota.
    unfold st_bind, st_gets.
    match goal with |- context [if ?b then _ else _] => destruct b end; reflexivity.
  - right. repeat split; eauto. by apply Z.eqb_neq.
Qed.



(** Outside [site-packages] the constructor fails in every case. *)
Lemma init_fails_outside_site_packages {fs} (os : os_api fs) (root : string) (s : fs) :
  str_find (module_dir os) "site-packages/" = -1 ->
  exists e s', __init__ os root s = (Raise e, s').
Proof.
  intros Hfind. unfold __init__, st_bind.
  pose proof (setup_runtime_dependencies_cases os s) as Hcases.
  destruct (setup_runtime_dependencies os s) as [[command|e|] s1]; [|eauto|done].
  by destruct Hcases as (_ & _ & Hne & _).
Qed.

(** ** The definition request of the test *)

Lemma py_getitem_idx_second x y l : py_getitem_idx (PList (x :: y :: l)) 1 = Ok y.
Proof.
  unfold py_getitem_idx, seq_index.
  change (1 <? 0) with false. cbv iota.
  replace (1 <? Z.of_nat (length (x :: y :: l))) with true
    by (symmetry; apply Z.ltb_lt; simpl length; lia).
  reflexivity.
Qed.




(** * The properties on the POSIX instance *)

Lemma register_capability_handler_needs_searcher_event_witness :
  register_capability_handler
    (PDict [("registrations", PList sample_registrations)]) new_session
  = (Raise (AttributeError no_searcher_event_msg), new_session).
Proof.
  exact (proj2 (proj2 (register_capability_handler_needs_searcher_event
           [("registrations", PList sample_registrations)]
           [PDict [("id", PStr "a1"); ("method", PStr "workspace/didChangeWatchedFiles")]]
           []
           (PDict [("id", PStr "a2"); ("method", PStr "workspace/executeCommand")])
           new_session eq_refl eq_refl eq_refl eq_refl))).
Defined.

(** The same request on an object that was given the event: the handler
    returns and the event is set. *)
Example register_capability_handler_with_searcher_event :
  register_capability_handler
    (PDict [("registrations", PList sample_registrations)])
    session_with_searcher_event
  = (Ok PNone, set_initialize_searcher_command_available session_with_searcher_event).
Proof. reflexivity. Qed.

Lemma start_server_rejects_unexpected_capabilities_witness :
  exists s1,
    check_capabilities sync_mode_one_response = Raise (AssertionError EmptyString) /\
    (forall yield_,
        start_server posix_os (sample_server sync_mode_one_response) sample_self
          yield_ new_session = (Raise (AssertionError EmptyString), s1)) /\
    completions_available s1 = false /\
    server_ready s1 = false /\
    existsb is_initialized (trace s1) = false.
Proof.
  destruct (start_server_rejects_unexpected_capabilities posix_os
              (sample_server sync_mode_one_response) sample_self
              sample_initialize_params sync_mode_one_response new_session
              eq_refl eq_refl eq_refl eq_refl eq_refl)
    as (e & s1 & Hcheck & Hwhich & Hrun & _ & Hc & Hr & Htrace).
  simpl in Hwhich. subst e.
  exists s1. split; [exact Hcheck|]. split; [exact Hrun|].
  split; [exact Hc|]. split; [exact Hr|].
  rewrite Htrace. reflexivity.
Defined.

(** A response without a completion provider fails the [assert] of line
    249, not the subscript of line 250. *)
Example missing_completion_provider_raises_assertion_error :
  capabilities_as_expected no_completion_provider_response = false /\
  check_capabilities no_completion_provider_response
  = Raise (AssertionError EmptyString) /\
  fst (start_server posix_os (sample_server no_completion_provider_response)
         sample_self (st_ret tt) new_session)
  = Raise (AssertionError EmptyString).
Proof. repeat split. Qed.

(** The error of a capability mismatch is an [AssertionError], not a
    [ProtocolError]. *)
Lemma capability_mismatch_raises_assertion_error :
  capabilities_as_expected sync_mode_one_response = false /\
  fst (start_server posix_os (sample_server sync_mode_one_response) sample_self
         (st_ret tt) new_session)
  = Raise (AssertionError EmptyString) /\
  exn_class (AssertionError EmptyString) <> "ProtocolError".
Proof. split; [reflexivity|]. split; [reflexivity|discriminate]. Qed.

(** Equality is Python's: a response that is a different JSON document can
    pass the checks. *)
Example capabilities_equal_by_value :
  capabilities_as_expected equal_by_value_response = true /\
  check_capabilities equal_by_value_response = Ok tt.
Proof. split; reflexivity. Qed.

Lemma start_server_error_exit_skips_shutdown_witness :
  exists o s3,
    start_server posix_os (sample_server good_response) sample_self
      failing_block new_session = (o, s3) /\
    (forall u, o <> Ok u) /\
    existsb is_shutdown (trace s3) = false /\
    existsb is_stop (trace s3) = false.
Proof.
  destruct (start_server_error_exit_skips_shutdown posix_os
              (sample_server good_response) sample_self
              sample_initialize_params good_response new_session
              (session_at_yield sample_initialize_params new_session)
              failing_block (Exn "RuntimeError" "boom")
              (conj eq_refl (conj eq_refl (conj eq_refl
                 (conj eq_refl (conj eq_refl eq_refl)))))
              eq_refl)
    as (o & s3 & Hrun & Hnot & Htrace & _).
  exists o, s3. split; [exact Hrun|]. split; [exact Hnot|].
  rewrite Htrace. split; reflexivity.
Defined.








(** * Further properties *)

(** ** The capability-registration handler on arbitrary parameters *)

Lemma only_sets_refl s : only_sets_searcher_event s s.
Proof. repeat split; auto. Qed.

Lemma only_sets_trans s1 s2 s3 :
  only_sets_searcher_event s1 s2 -> only_sets_searcher_event s2 s3 ->
  only_sets_searcher_event s1 s3.
Proof.
  intros (H1 & H2 & H3 & H4 & H5 & H6 & H7) (G1 & G2 & G3 & G4 & G5 & G6 & G7).
  repeat split; try congruence; auto.
  intros b Hb. destruct (H7 b Hb) as [H|H]; [exact (G7 b H)|].
  right. exact (G5 H).
Qed.

Lemma st_bind_only_sets {A B} (m : M session A) (k : A -> M session B) :
  (forall s, only_sets_searcher_event s (snd (m s))) ->
  (forall a s, only_sets_searcher_event s (snd (k a s))) ->
  forall s, only_sets_searcher_event s (snd (st_bind m k s)).
Proof.
  intros Hm Hk s. unfold st_bind. specialize (Hm s).
  destruct (m s) as [[a|e|] s1]; simpl in *; auto.
  eapply only_sets_trans; [exact Hm|apply Hk].
Qed.

Lemma st_for_only_sets {A} (body : A -> M session unit) (xs : list A) :
  (forall x s, only_sets_searcher_event s (snd (body x s))) ->
  forall s, only_sets_searcher_event s (snd (st_for xs body s)).
Proof.
  intros Hbody. induction xs as [|x xs IH]; intros s; [apply only_sets_refl|].
  cbn [st_for]. apply st_bind_only_sets; auto.
Qed.

(** X1.  Whatever the parameters are, well formed or not, and whether the
    handler returns or raises, it leaves the registry, the trace and the two
    other events as they were, it never clears the
    [initialize_searcher_command_available] event, and it gives the object
    no such attribute when it has none. *)
Theorem register_capability_handler_only_sets_searcher_event
    (params : pyval) (s : session) :
  only_sets_searcher_event s (snd (register_capability_handler params s)).
Proof.
  revert s. unfold register_capability_handler.
  repeat (apply st_bind_only_sets; [intros; apply only_sets_refl|intros ?]).
  apply st_bind_only_sets; [|intros; apply only_sets_refl].
  apply st_for_only_sets. intros registration. unfold registration_body.
  apply st_bind_only_sets; [intros; apply only_sets_refl|].
  intros method s. destruct (py_eq method executeCommand); [|apply only_sets_refl].
  unfold initialize_searcher_command_available_set.
  destruct (initialize_searcher_command_available s) as [b|] eqn:Hs;
    [|apply only_sets_refl].
  repeat split; simpl; auto; congruence.
Qed.

(** X2.  A registration without a [method] stops the handler with
    [KeyError], unless an earlier registration already stopped it: on the
    object as the constructor builds it, which has no
    [initialize_searcher_command_available] attribute, an earlier
    [workspace/executeCommand] registration raises [AttributeError] first,
    and in both cases the object is left as it was.  On an object that has
    the event, the registrations before the malformed one have been taken
    into account (the event is set when one of them is
    [workspace/executeCommand]), and those after it are not looked at. *)
Theorem register_capability_handler_stops_at_malformed_registration
    (d bad : list (string * pyval)) (good rest : list pyval) (s : session) :
  dict_get "registrations" d = Some (PList (good ++ PDict bad :: rest)) ->
  forallb is_registration good = true ->
  dict_get "method" bad = None ->
  register_capability_handler (PDict d) s
  = match initialize_searcher_command_available s with
    | Some _ =>
        (Raise (KeyError "method"),
         if existsb registers_execute_command good
         then set_initialize_searcher_command_available s else s)
    | None =>
        (Raise (if existsb registers_execute_command good
                then AttributeError no_searcher_event_msg
                else KeyError "method"), s)
    end.
Proof.
  intros Hregs Hgood Hbad.
  rewrite (register_capability_handler_loop d _ s Hregs), st_for_app.
  destruct (initialize_searcher_command_available s) as [b|] eqn:Hs.
  - rewrite (registration_loop good s b) by assumption.
    rewrite st_for_cons. unfold registration_body.
    unfold st_bind at 1. unfold st_lift at 1.
    cbn [py_getitem_key]. by rewrite Hbad.
  - rewrite registration_loop_without_event by assumption.
    destruct (existsb registers_execute_command good); [reflexivity|].
    rewrite st_for_cons. unfold registration_body.
    unfold st_bind at 1. unfold st_lift at 1.
    cbn [py_getitem_key]. by rewrite Hbad.
Qed.

(** X3.  When the handler returns on a well-formed request, it returns
    [None], and handling the same request a second time returns the same
    and changes nothing any more.  On the object as the constructor builds
    it, which has no [initialize_searcher_command_available] attribute, the
    handler returns only when no registration is
    [workspace/executeCommand], and it changes nothing; on an object that
    has the event, the event is set exactly when some registration is
    [workspace/executeCommand]. *)
Theorem register_capability_handler_idempotent
    (d : list (string * pyval)) (regs : list pyval) (s s' : session) (r : pyval) :
  dict_get "registrations" d = Some (PList regs) ->
  forallb is_registration regs = true ->
  register_capability_handler (PDict d) s = (Ok r, s') ->
  register_capability_handler (PDict d) s' = (Ok r, s') /\
  r = PNone /\
  match initialize_searcher_command_available s with
  | None => existsb registers_execute_command regs = false /\ s' = s
  | Some _ =>
      s' = (if existsb registers_execute_command regs
            then set_initialize_searcher_command_available s else s)
  end.
Proof.
  intros Hregs Hall.
  rewrite !(register_capability_handler_loop d regs) by assumption.
  destruct (initialize_searcher_command_available s) as [b|] eqn:Hs.
  - rewrite (registration_loop regs s b) by assumption. intros [= <- <-].
    split; [|by split].
    destruct (existsb registers_execute_command regs) eqn:Hex.
    + rewrite (registration_loop regs _ true) by (assumption || reflexivity).
      by rewrite Hex.
    + rewrite (registration_loop regs s b) by assumption. by rewrite Hex.
  - rewrite registration_loop_without_event by assumption.
    destruct (existsb registers_execute_command regs) eqn:Hex; [discriminate|].
    intros [= <- <-]. split; [|by repeat split].
    rewrite registration_loop_without_event by assumption. by rewrite Hex.
Qed.

(** ** The capability checks *)

(** X4.  Every response that passes the three checks is a mapping with a
    [capabilities] mapping in which [textDocumentSync] is the number 2 (the
    [int], or a [float] of that value) and [completionProvider] is a mapping
    of two entries, each either [triggerCharacters] with exactly the six
    characters in order or [resolveProvider] with a value [== True]. *)
Theorem check_capabilities_accepts_only_expected (r : pyval) :
  check_capabilities r = Ok tt ->
  exists rd c sync d,
    r = PDict rd /\
    dict_get "capabilities" rd = Some (PDict c) /\
    dict_get "textDocumentSync" c = Some sync /\
    (sync = PInt 2 \/ exists f, sync = PFloat f /\ float_eq_int f 2 = true) /\
    dict_get "completionProvider" c = Some (PDict d) /\
    length d = 2%nat /\
    forall k x, In (k, x) d ->
      (k = "triggerCharacters" /\
       x = PList [PStr "."; PStr double_quote; PStr "'"; PStr "/"; PStr "@"; PStr "<"]) \/
      (k = "resolveProvider" /\ py_eq x (PBool true) = true).
Proof.
  intros H%check_capabilities_passes. unfold capabilities_as_expected in H.
  destruct r as [| | | | | |rd]; try discriminate.
  destruct (dict_get "capabilities" rd) as [[| | | | | |c]|] eqn:Hc; try discriminate.
  destruct (dict_get "textDocumentSync" c) as [sync|] eqn:Hs; try discriminate.
  destruct (dict_get "completionProvider" c) as [provider|] eqn:Hp; try discriminate.
  apply andb_prop in H as [Hsync Hprov].
  apply py_eq_two in Hsync.
  apply py_eq_expected_completion_provider in Hprov as (d & -> & Hlen & Hall).
  exists rd, c, sync, d. by repeat split.
Qed.

(** X5.  The capabilities are matched as a subset: adding or changing any
    capability other than [textDocumentSync] and [completionProvider] leaves
    the outcome of the checks as it was. *)
Theorem check_capabilities_ignores_other_capabilities
    (rd rd' c : list (string * pyval)) (k : string) (v : pyval) :
  dict_get "capabilities" rd = Some (PDict c) ->
  dict_get "capabilities" rd' = Some (PDict (dict_set k v c)) ->
  k <> "textDocumentSync" ->
  k <> "completionProvider" ->
  check_capabilities (PDict rd') = check_capabilities (PDict rd).
Proof.
  intros Hc Hc' Hk1 Hk2. unfold check_capabilities.
  cbn [py_getitem_key]. rewrite Hc, Hc'. cbn [obind py_getitem_key py_contains].
  unfold dict_mem. by rewrite !dict_get_set_ne by done.
Qed.

(** X6.  Which error a deficient [capabilities] mapping gives: a missing
    [textDocumentSync] is a [KeyError]; a mode that is not [== 2] is an
    [AssertionError]; and a missing [completionProvider], caught by the
    membership test of line 249, is an [AssertionError] too, not a
    [KeyError]. *)
Theorem check_capabilities_errors (rd c : list (string * pyval)) :
  dict_get "capabilities" rd = Some (PDict c) ->
  (dict_get "textDocumentSync" c = None ->
   check_capabilities (PDict rd) = Raise (KeyError "textDocumentSync")) /\
  (forall sync,
     dict_get "textDocumentSync" c = Some sync ->
     py_eq sync (PInt 2) = false ->
     check_capabilities (PDict rd) = Raise (AssertionError EmptyString)) /\
  (forall sync,
     dict_get "textDocumentSync" c = Some sync ->
     py_eq sync (PInt 2) = true ->
     dict_get "completionProvider" c = None ->
     check_capabilities (PDict rd) = Raise (AssertionError EmptyString)).
Proof.
  intros Hc. unfold check_capabilities. cbn [py_getitem_key]. rewrite Hc.
  cbn [obind py_getitem_key py_contains]. unfold dict_mem.
  split; [|split].
  - by intros ->.
  - intros sync -> Hsync. cbn [obind]. by rewrite Hsync.
  - intros sync -> Hsync Hprovider. cbn [obind]. rewrite Hsync, Hprovider.
    reflexivity.
Qed.

(** ** More on [start_server] *)

(** X7.  When the block ended normally and the shutdown request raises or
    never completes, [server.stop()] is not called: after the request the
    trace has no stop, and the caller does not get a normal return. *)
Theorem start_server_failed_shutdown_skips_stop {fs} (os : os_api fs)
    (srv : server_api) (self : TypeScriptLanguageServer)
    (p r : pyval) (s s2 : session) (yield_ : M session unit) :
  startup_succeeds os srv self p r ->
  yield_ (session_at_yield p s) = (Ok tt, s2) ->
  server_shutdown srv <> Ok tt ->
  exists o s3 evs,
    start_server os srv self yield_ s = (o, s3) /\
    (forall u, o <> Ok u) /\
    trace s3 = trace s2 ++ EvShutdown :: evs /\
    existsb is_stop evs = false.
Proof.
  intros Hok Hbody Hshutdown.
  rewrite (start_server_reaches_yield os srv self p r s yield_ Hok), Hbody.
  unfold resume_after_yield, st_with, await.
  cbv beta iota delta [st_bind st_modify st_lift st_ret st_raise].
  destruct (server_shutdown srv) as [[]|e|]; [done| |].
  - destruct (super_exit srv (Some e)) as [[]|e'|];
      eexists _, _, _; (split; [reflexivity|]); (split; [discriminate|]);
      (split; [trace_normal|reflexivity]).
  - eexists _, _, []. split; [reflexivity|]. split; [discriminate|].
    split; [trace_normal|reflexivity].
Qed.

(** X8.  A start-up that fails after the server process was started leaves
    it running: whatever fails between [server.start()] and the [yield] (the
    initialize parameters, the initialize request, the capability checks,
    the [initialized] notification), no shutdown request is sent and the
    process is not stopped, and the caller's block never runs. *)
Theorem start_server_failed_startup_leaves_process {fs} (os : os_api fs)
    (srv : server_api) (self : TypeScriptLanguageServer) (s : session) :
  super_enter srv = Ok tt ->
  server_start srv = Ok tt ->
  (forall p r, ~ startup_succeeds os srv self p r) ->
  exists o s1 evs,
    (forall yield_, start_server os srv self yield_ s = (o, s1)) /\
    (forall u, o <> Ok u) /\
    trace s1 = trace s ++ registration_events ++
      [EvSuperEnter; EvLog "Starting TypeScript server process"; EvServerStart] ++ evs /\
    existsb is_shutdown evs = false /\
    existsb is_stop evs = false.
Proof.
  intros Henter Hstart Hfails.
  destruct (_get_initialize_params os (repository_root_path self)) as [p|e|] eqn:Hparams.
  2:{ destruct (super_exit srv (Some e)) as [[]|e'|] eqn:Hexit;
        eexists _, _, _; (split; [intros; run_generator; reflexivity|]);
        repeat split; try discriminate; trace_normal. }
  2:{ eexists _, _, _; (split; [intros; run_generator; reflexivity|]);
        repeat split; try discriminate; trace_normal. }
  destruct (send_initialize srv p) as [r|e|] eqn:Hinit.
  2:{ destruct (super_exit srv (Some e)) as [[]|e'|] eqn:Hexit;
        eexists _, _, _; (split; [intros; run_generator; reflexivity|]);
        repeat split; try discriminate; trace_normal. }
  2:{ eexists _, _, _; (split; [intros; run_generator; reflexivity|]);
        repeat split; try discriminate; trace_normal. }
  destruct (check_capabilities r) as [[]|e|] eqn:Hcheck.
  2:{ destruct (super_exit srv (Some e)) as [[]|e'|] eqn:Hexit;
        eexists _, _, _; (split; [intros; run_generator; reflexivity|]);
        repeat split; try discriminate; trace_normal. }
  2:{ eexists _, _, _; (split; [intros; run_generator; reflexivity|]);
        repeat split; try discriminate; trace_normal. }
  destruct (notify_initialized srv (PDict [])) as [[]|e] eqn:Hnotify.
  { exfalso. apply (Hfails p r). by repeat split. }
  destruct (super_exit srv (Some e)) as [[]|e'|] eqn:Hexit;
    eexists _, _, _; (split; [intros; run_generator; reflexivity|]);
    repeat split; try discriminate; trace_normal.
Qed.

(** X9.  Leaving the scope clears nothing: however the block ended and
    whatever the shutdown did, the registry and the three events are at the
    end as the block left them; in particular [server_ready] and
    [completions_available] stay set after the server is gone. *)
Theorem start_server_exit_keeps_events {fs} (os : os_api fs)
    (srv : server_api) (self : TypeScriptLanguageServer)
    (p r : pyval) (s s2 s3 : session) (yield_ : M session unit) (o o' : outcome unit) :
  startup_succeeds os srv self p r ->
  yield_ (session_at_yield p s) = (o, s2) ->
  start_server os srv self yield_ s = (o', s3) ->
  handlers s3 = handlers s2 /\
  completions_available s3 = completions_available s2 /\
  server_ready s3 = server_ready s2 /\
  initialize_searcher_command_available s3 = initialize_searcher_command_available s2.
Proof.
  intros Hok Hbody.
  rewrite (start_server_reaches_yield os srv self p r s yield_ Hok), Hbody.
  unfold resume_after_yield, st_with, await.
  cbv beta iota delta [st_bind st_modify st_lift st_ret st_raise].
  destruct o as [[]|e|].
  - destruct (server_shutdown srv) as [[]|e|].
    + destruct (server_stop srv) as [[]|e|];
        [destruct (super_exit srv None) as [[]|e|]
        |destruct (super_exit srv (Some e)) as [[]|e'|]|];
        intros [= <- <-]; by repeat split.
    + destruct (super_exit srv (Some e)) as [[]|e'|]; intros [= <- <-]; by repeat split.
    + intros [= <- <-]; by repeat split.
  - destruct (super_exit srv (Some e)) as [[]|e'|]; intros [= <- <-]; by repeat split.
  - intros [= <- <-]; by repeat split.
Qed.

Lemma register_baseline_lookup (h : gmap string HandlerEntry) :
  (forall method,
      ~ In method (map fst baseline_handlers) ->
      register_baseline h !! method = h !! method) /\
  (forall method entry,
      In (method, entry) baseline_handlers ->
      register_baseline h !! method = Some entry).
Proof.
  split.
  - intros method Hnot. unfold register_baseline. simpl in Hnot.
    rewrite !lookup_insert_ne; [reflexivity|intros <-; tauto..].
  - intros method entry Hin. unfold register_baseline. simpl in Hin.
    destruct Hin as [[= <- <-]|[[= <- <-]|[[= <- <-]|[[= <- <-]|[[= <- <-]|[]]]]]];
      repeat (rewrite lookup_insert_ne by discriminate); apply lookup_insert_eq.
Qed.

Lemma register_baseline_idempotent (h : gmap string HandlerEntry) :
  register_baseline (register_baseline h) = register_baseline h.
Proof.
  apply map_eq. intros method.
  destruct (decide (In method (map fst baseline_handlers))) as [Hm|Hm].
  - apply in_map_iff in Hm as ([m entry] & <- & Hm). simpl.
    by rewrite !(proj2 (register_baseline_lookup _) _ _ Hm).
  - by rewrite (proj1 (register_baseline_lookup _) _ Hm).
Qed.


(** X11.  When the block ended normally, the shutdown request is sent
    first; the process is stopped exactly when that request completed; and
    the caller gets a normal return exactly when the request, the stop and
    the leaving of the base class's context all completed, the trace then
    ending with shutdown, stop and that exit, once each. *)
Theorem start_server_normal_exit_sequence {fs} (os : os_api fs)
    (srv : server_api) (self : TypeScriptLanguageServer)
    (p r : pyval) (s s2 : session) (yield_ : M session unit) :
  startup_succeeds os srv self p r ->
  yield_ (session_at_yield p s) = (Ok tt, s2) ->
  exists o s3 evs,
    start_server os srv self yield_ s = (o, s3) /\
    trace s3 = trace s2 ++ EvShutdown :: evs /\
    (o = Ok tt <->
     server_shutdown srv = Ok tt /\ server_stop srv = Ok tt /\
     super_exit srv None = Ok tt) /\
    (o = Ok tt -> evs = [EvStop; EvSuperExit None]) /\
    (existsb is_stop evs = true <-> server_shutdown srv = Ok tt).
Proof.
  intros Hok Hbody.
  rewrite (start_server_reaches_yield os srv self p r s yield_ Hok), Hbody.
  unfold resume_after_yield, st_with, await.
  cbv beta iota delta [st_bind st_modify st_lift st_ret st_raise].
  destruct (server_shutdown srv) as [[]|e|].
  - destruct (server_stop srv) as [[]|e|];
      [destruct (super_exit srv None) as [[]|e|]
      |destruct (super_exit srv (Some e)) as [[]|e'|]|];
      eexists _, _, _; (split; [reflexivity|]); (split; [trace_normal|]);
      simpl; intuition (try discriminate; try reflexivity).
  - destruct (super_exit srv (Some e)) as [[]|e'|];
      eexists _, _, _; (split; [reflexivity|]); (split; [trace_normal|]);
      simpl; intuition (try discriminate; try reflexivity).
  - eexists _, _, []; (split; [reflexivity|]); (split; [trace_normal|]);
      simpl; intuition (try discriminate; try reflexivity).
Qed.

(** ** More on [setup_runtime_dependencies] and [__init__] *)

(** X12.  Whenever the constructor returns an object, its launch command
    is the path of the executable under the [ts-lsp] directory followed by
    [" --stdio"] and its working directory is the repository root, the
    language is [typescript]; and then the platform is one of the seven
    supported ones, the module is under [site-packages], [node] and [npm]
    were found, and the executable exists. *)
Theorem init_returns_launch_info {fs} (os : os_api fs) (root : string) (s s' : fs)
    (self : TypeScriptLanguageServer) :
  __init__ os root s = (Ok self, s') ->
  repository_root_path self = root /\
  cmd (process_launch_info self) = tsserver_executable_path os +:+ " --stdio" /\
  cwd (process_launch_info self) = root /\
  language_id self = "typescript" /\
  (exists p, get_platform_id os = Returns p /\ In p valid_platforms) /\
  str_find (module_dir os) "site-packages/" <> -1 /\
  (exists node, which os "node" s = Returns (Some node) /\ node <> EmptyString) /\
  (exists npm, which os "npm" s = Returns (Some npm) /\ npm <> EmptyString) /\
  path_exists os (tsserver_executable_path os) s' = true.
Proof.
  unfold __init__, st_bind.
  pose proof (setup_runtime_dependencies_cases os s) as Hcases.
  destruct (setup_runtime_dependencies os s) as [[command|e|] s1]; [|discriminate|done].
  unfold st_ret. intros [= <- <-].
  destruct Hcases as (-> & (p & Hp & Hvalid) & Hfind & (node & Hnode & Hnf)
                      & (npm & Hnpm & Hnpmf) & Hexe).
  repeat split; auto.
  - exists p. split; [exact Hp|].
    unfold platform_in in Hvalid. apply existsb_exists in Hvalid as (q & Hq & Heq).
    apply bool_decide_eq_true in Heq. by subst.
  - destruct node as [node|]; [|discriminate]. exists node. split; [exact Hnode|].
    intros ->. discriminate.
  - destruct npm as [npm|]; [|discriminate]. exists npm. split; [exact Hnpm|].
    intros ->. discriminate.
Qed.

(** X13.  Nothing is created or installed when the [ts-lsp] directory
    already exists, whether or not the executable is in it, nor when [node]
    or [npm] is missing or the module is outside [site-packages]: the file
    system is then left untouched. *)
Theorem setup_installs_only_into_missing_directory {fs} (os : os_api fs) (s : fs) :
  path_exists os (tsserver_ls_dir_path os) s = true \/
  which os "node" s = Returns None \/
  which os "npm" s = Returns None \/
  str_find (module_dir os) "site-packages/" = -1 ->
  snd (setup_runtime_dependencies os s) = s.
Proof.
  intros H.
  destruct (setup_runtime_dependencies_state os s)
    as [Hs|(Hdir & Hfind & (node & Hnode & Hnf) & (npm & Hnpm & Hnpmf))]; [exact Hs|].
  exfalso. destruct H as [H|[H|[H|H]]].
  - congruence.
  - rewrite H in Hnode. injection Hnode as <-. discriminate.
  - rewrite H in Hnpm. injection Hnpm as <-. discriminate.
  - contradiction.
Qed.

Ltac setup_early Hp Hvalid Hload Hdeps Hlen Hfind :=
  unfold setup_runtime_dependencies;
  unfold st_bind at 1; unfold st_lift at 1; rewrite Hp; cbn [call];
  unfold st_bind at 1; rewrite Hvalid; unfold st_ret at 1; cbv beta iota;
  unfold st_bind at 1; unfold st_lift at 1; rewrite Hload; cbn [call];
  unfold st_bind at 1; unfold st_lift at 1; cbn [py_pop_default];
  unfold st_bind at 1; unfold st_lift at 1; rewrite Hdeps;
  unfold st_bind at 1; unfold st_lift at 1; rewrite Hlen;
  unfold st_bind at 1;
  rewrite (proj2 (Z.eqb_neq _ _) Hfind); unfold st_ret at 1; cbv beta iota.

(** X14.  Once the first three blocks passed, a missing [node] raises
    [AssertionError] with the message of line 109, and, [node] being found,
    a missing [npm] raises it with the message of line 112; in both cases
    before anything is created or installed. *)
Theorem setup_requires_node_then_npm {fs} (os : os_api fs) (deps : pyval) (s : fs) :
  setup_checks_pass os deps ->
  (which os "node" s = Returns None ->
   setup_runtime_dependencies os s
   = (Raise (AssertionError "node is not installed or isn't in PATH"), s)) /\
  (forall node,
     which os "node" s = Returns (Some node) -> node <> EmptyString ->
     which os "npm" s = Returns None ->
     setup_runtime_dependencies os s
     = (Raise (AssertionError "npm is not installed or isn't in PATH"), s)).
Proof.
  intros (p & d & n & Hp & Hvalid & Hload & Hdeps & Hlen & Hfind). split.
  - intros Hnode. setup_early Hp Hvalid Hload Hdeps Hlen Hfind.
    unfold st_bind at 1. unfold sys_read at 1. rewrite Hnode. cbn [call].
    unfold st_bind at 1. reflexivity.
  - intros node Hnode Hne Hnpm. setup_early Hp Hvalid Hload Hdeps Hlen Hfind.
    unfold st_bind at 1. unfold sys_read at 1. rewrite Hnode. cbn [call].
    unfold st_bind at 1. unfold st_lift at 1. cbn [which_found].
    destruct (String.eqb_spec node EmptyString) as [|_]; [done|]. cbn [negb py_assert].
    unfold st_bind at 1. unfold sys_read at 1. rewrite Hnpm. cbn [call].
    unfold st_bind at 1. reflexivity.
Qed.

(** X15.  The installation stops at the first dependency whose
    installation raises: that error is what [setup_runtime_dependencies]
    raises, the dependencies after it are not installed, and the executable
    is not looked for. *)
Theorem setup_stops_at_failing_installation {fs} (os : os_api fs)
    (before after : list pyval) (dep : pyval) (s s1 s2 s3 s4 : fs)
    (node npm : string) (e : exn) :
  setup_checks_pass os (PList (before ++ dep :: after)) ->
  which os "node" s = Returns (Some node) -> node <> EmptyString ->
  which os "npm" s = Returns (Some npm) -> npm <> EmptyString ->
  path_exists os (tsserver_ls_dir_path os) s = false ->
  makedirs os (tsserver_ls_dir_path os) s = (Returns tt, s1) ->
  chmod os (tsserver_ls_dir_path os) s1 = (Returns tt, s2) ->
  st_for before (install_dependency os (tsserver_ls_dir_path os)) s2 = (Ok tt, s3) ->
  install_dependency os (tsserver_ls_dir_path os) dep s3 = (Raise e, s4) ->
  setup_runtime_dependencies os s = (Raise e, s4).
Proof.
  intros (p & d & n & Hp & Hvalid & Hload & Hdeps & Hlen & Hfind)
         Hnode Hnode_ne Hnpm Hnpm_ne Hdir Hmk Hch Hbefore Hdep.
  setup_early Hp Hvalid Hload Hdeps Hlen Hfind.
  unfold st_bind at 1. unfold sys_read at 1. rewrite Hnode. cbn [call].
  unfold st_bind at 1. unfold st_lift at 1. cbn [which_found].
  destruct (String.eqb_spec node EmptyString) as [|_]; [done|]. cbn [negb py_assert].
  unfold st_bind at 1. unfold sys_read at 1. rewrite Hnpm. cbn [call].
  unfold st_bind at 1. unfold st_lift at 1. cbn [which_found].
  destruct (String.eqb_spec npm EmptyString) as [|_]; [done|]. cbn [negb py_assert].
  unfold st_bind at 1. unfold st_gets at 1.
  fold (tsserver_ls_dir_path os). rewrite Hdir.
  unfold st_bind at 1. unfold st_bind at 1. unfold sys_do at 1. rewrite Hmk. cbn [call].
  unfold st_bind at 1. unfold sys_do at 1. rewrite Hch. cbn [call].
  unfold st_bind at 1. unfold st_lift at 1. cbn [py_iter].
  rewrite st_for_app, Hbefore. cbn [st_for]. unfold st_bind at 1. by rewrite Hdep.
Qed.

(** ** More on [_get_initialize_params] *)

(** X16.  For a repository path that has no file URI ([as_uri] raises, as
    for a relative path), and a template with its [_description] and its two
    root placeholders, [_get_initialize_params] raises the error of
    [as_uri], whatever the workspace folders of the template are. *)
Theorem get_initialize_params_needs_file_uri {fs} (os : os_api fs) (path : string)
    (d : list (string * pyval)) (e : exn) :
  json_load_file os (path_join os (module_dir os) ["initialize_params.json"])
    = Returns (PDict d) ->
  dict_mem "_description" d = true ->
  dict_get "rootPath" d = Some (PStr "$rootPath") ->
  dict_get "rootUri" d = Some (PStr "$rootUri") ->
  as_uri os path = Raises e ->
  _get_initialize_params os path = Raise e.
Proof.
  intros Hload Hdesc Hpath Huri Has_uri.
  unfold _get_initialize_params.
  rewrite Hload, Has_uri. cbn [call obind py_delitem_key]. rewrite Hdesc.
  repeat (py_step || rewrite ?Hpath, ?Huri). reflexivity.
Qed.

(** X17.  With the root placeholders in place, the template must have a
    first workspace folder with a [uri]: without [workspaceFolders] the
    function raises [KeyError], with an empty list [IndexError], and with a
    first folder that has no [uri] [KeyError]. *)
Theorem get_initialize_params_needs_workspace_folder {fs} (os : os_api fs)
    (path uri : string) (d : list (string * pyval)) :
  json_load_file os (path_join os (module_dir os) ["initialize_params.json"])
    = Returns (PDict d) ->
  dict_mem "_description" d = true ->
  dict_get "rootPath" d = Some (PStr "$rootPath") ->
  dict_get "rootUri" d = Some (PStr "$rootUri") ->
  as_uri os path = Returns uri ->
  (dict_get "workspaceFolders" d = None ->
   _get_initialize_params os path = Raise (KeyError "workspaceFolders")) /\
  (dict_get "workspaceFolders" d = Some (PList []) ->
   _get_initialize_params os path = Raise (IndexError "list index out of range")) /\
  (forall folder folders,
     dict_get "workspaceFolders" d = Some (PList (PDict folder :: folders)) ->
     dict_get "uri" folder = None ->
     _get_initialize_params os path = Raise (KeyError "uri")).
Proof.
  intros Hload Hdesc Hpath Huri Has_uri.
  repeat split; [intros Hf|intros Hf|intros folder folders Hf Hfu];
    unfold _get_initialize_params;
    rewrite Hload, Has_uri; cbn [call obind py_delitem_key]; rewrite Hdesc;
    repeat (py_step || rewrite ?Hpath, ?Huri, ?Hf, ?Hfu); reflexivity.
Qed.

(** ** The assertions of the test *)

(** X18.  The assertions of lines 36-43 pass exactly on a list of two items
    whose second item is a mapping with the expected [relativePath] and a
    [range] equal to the expected one; the first item is not looked at, and
    a second item without [relativePath] fails the test. *)
Theorem definition_assertions_pass_iff (purepath_str : string -> string) (result : pyval) :
  definition_assertions purepath_str result = Ok tt <->
  exists first d range,
    result = PList [first; PDict d] /\
    dict_get "relativePath" d = Some (PStr (purepath_str "app/models/feed.rb")) /\
    dict_get "range" d = Some range /\
    py_eq range expected_definition_range = true.
Proof.
  unfold definition_assertions. split.
  - destruct result as [| | | | |l|]; try discriminate.
    cbn [py_is_list py_assert obind py_len].
    destruct (Z.eqb_spec (Z.of_nat (length l)) 2) as [Hlen|]; [|discriminate].
    destruct l as [|first [|item [|? ?]]]; simpl in Hlen; try lia.
    cbn [obind]. rewrite py_getitem_idx_second. cbn [obind].
    destruct item as [| | | | | |d]; try discriminate. cbn [py_getitem_key].
    destruct (dict_get "relativePath" d) as [v|] eqn:Hv; [|discriminate].
    cbn [obind]. destruct (py_eq v _) eqn:Heq; [|discriminate].
    apply py_eq_str in Heq as ->. cbn [py_assert obind].
    destruct (dict_get "range" d) as [range|] eqn:Hr; [|discriminate].
    cbn [obind]. destruct (py_eq range _) eqn:Hrange; [|discriminate].
    intros _. by exists first, d, range.
  - intros (first & d & range & -> & Hv & Hr & Hrange).
    cbn [py_is_list py_assert obind py_len]. simpl (Z.of_nat _ =? 2). cbn [obind].
    rewrite py_getitem_idx_second. cbn [obind py_getitem_key].
    rewrite Hv. cbn [obind py_eq]. rewrite String.eqb_refl. cbn [py_assert obind].
    rewrite Hr. cbn [obind]. by rewrite Hrange.
Qed.

Lemma strip_location_has_paths item :
  has_paths item = true -> strip_location item = Ok (without_paths item).
Proof.
  destruct item as [| | | | | |d]; try discriminate. simpl.
  intros [Hu Ha]%andb_prop. unfold strip_location. cbn [py_delitem_key].
  rewrite Hu. cbn [obind py_delitem_key].
  unfold dict_mem in *. rewrite dict_get_remove_ne by discriminate.
  destruct (dict_get "absolutePath" d); [reflexivity|discriminate].
Qed.

Lemma strip_locations_has_paths items :
  forallb has_paths items = true ->
  strip_locations items = Ok (map without_paths items).
Proof.
  induction items as [|item items IH]; [reflexivity|].
  simpl. intros [H Hall]%andb_prop.
  by rewrite strip_location_has_paths, IH.
Qed.

Lemma strip_locations_missing_uri before d after :
  forallb has_paths before = true ->
  dict_get "uri" d = None ->
  strip_locations (before ++ PDict d :: after) = Raise (KeyError "uri").
Proof.
  intros Hbefore Hd. induction before as [|item before IH]; simpl.
  - unfold strip_location. cbn [py_delitem_key]. unfold dict_mem. by rewrite Hd.
  - simpl in Hbefore. apply andb_prop in Hbefore as [H Hbefore].
    by rewrite strip_location_has_paths, IH.
Qed.

Lemma without_paths_other_fields (d : list (string * pyval)) (k : string) :
  k <> "uri" -> k <> "absolutePath" ->
  dict_get k (dict_remove "absolutePath" (dict_remove "uri" d)) = dict_get k d.
Proof. intros H1 H2. by rewrite !dict_get_remove_ne by congruence. Qed.

(** X19.  On a result of eight locations, the loop of lines 50-52 removes
    [uri] and [absolutePath] from every item and nothing else, and what is
    compared with the expected references is the list of the items so
    stripped, in the order of the result.  An item without [uri] fails the
    test with [KeyError] before any comparison. *)
Theorem references_assertions_compare_stripped
    (assertCountEqual : pyval -> pyval -> result unit) (expected : pyval)
    (items : list pyval) :
  length items = 8%nat ->
  (forallb has_paths items = true ->
   references_assertions assertCountEqual expected (PList items)
   = call (assertCountEqual (PList (map without_paths items)) expected)) /\
  (forall d k,
     k <> "uri" -> k <> "absolutePath" ->
     exists d', without_paths (PDict d) = PDict d' /\
                dict_get k d' = dict_get k d /\
                dict_get "uri" d' = None /\ dict_get "absolutePath" d' = None) /\
  (forall before d after,
     items = before ++ PDict d :: after ->
     forallb has_paths before = true ->
     dict_get "uri" d = None ->
     references_assertions assertCountEqual expected (PList items)
     = Raise (KeyError "uri")).
Proof.
  intros Hlen. unfold references_assertions.
  cbn [py_is_list py_assert obind py_len py_iter]. rewrite Hlen.
  change (Z.of_nat 8 =? 8) with true. cbn [obind]. split; [|split].
  - intros Hall. by rewrite strip_locations_has_paths.
  - intros d k H1 H2. eexists. split; [reflexivity|].
    split; [by apply without_paths_other_fields|].
    split; [|apply dict_get_remove_eq].
    rewrite dict_get_remove_ne by discriminate. apply dict_get_remove_eq.
  - intros before d after -> Hbefore Hd.
    by rewrite strip_locations_missing_uri.
Qed.

(** ** The further properties on the POSIX instance *)

Lemma register_capability_handler_stops_at_malformed_registration_witness :
  register_capability_handler
    (PDict [("registrations", PList malformed_registrations)]) new_session
  = (Raise (AttributeError no_searcher_event_msg), new_session) /\
  register_capability_handler
    (PDict [("registrations", PList (tl malformed_registrations))]) new_session
  = (Raise (KeyError "method"), new_session).
Proof.
  split.
  - apply (register_capability_handler_stops_at_malformed_registration
             [("registrations", PList malformed_registrations)]
             [("id", PStr "b2")]
             [PDict [("id", PStr "b1"); ("method", PStr "workspace/executeCommand")]]
             [PDict [("id", PStr "b3"); ("method", PStr "workspace/didChangeWatchedFiles")]]
             new_session); reflexivity.
  - apply (register_capability_handler_stops_at_malformed_registration
             [("registrations", PList (tl malformed_registrations))]
             [("id", PStr "b2")]
             []
             [PDict [("id", PStr "b3"); ("method", PStr "workspace/didChangeWatchedFiles")]]
             new_session); reflexivity.
Defined.

Lemma register_capability_handler_idempotent_witness :
  register_capability_handler
    (PDict [("registrations", PList other_registrations)]) new_session
  = (Ok PNone, new_session) /\
  existsb registers_execute_command other_registrations = false.
Proof.
  destruct (register_capability_handler_idempotent
              [("registrations", PList other_registrations)]
              other_registrations new_session new_session PNone
              eq_refl eq_refl eq_refl)
    as (Hagain & _ & Hnone & _).
  split; [exact Hagain|exact Hnone].
Defined.

Lemma check_capabilities_accepts_only_expected_witness :
  exists rd c sync,
    equal_by_value_response = PDict rd /\
    dict_get "capabilities" rd = Some (PDict c) /\
    dict_get "textDocumentSync" c = Some sync /\
    (sync = PInt 2 \/ exists f, sync = PFloat f /\ float_eq_int f 2 = true).
Proof.
  destruct (check_capabilities_accepts_only_expected equal_by_value_response eq_refl)
    as (rd & c & sync & d & Hr & Hc & Hs & Hsync & _).
  by exists rd, c, sync.
Defined.

Lemma check_capabilities_ignores_other_capabilities_witness :
  check_capabilities
    (PDict [("capabilities",
             PDict [("textDocumentSync", PInt 2);
                    ("completionProvider", expected_completion_provider);
                    ("hoverProvider", PBool true)])])
  = check_capabilities good_response.
Proof.
  apply (check_capabilities_ignores_other_capabilities
           [("capabilities",
             PDict [("textDocumentSync", PInt 2);
                    ("completionProvider", expected_completion_provider)])]
           [("capabilities",
             PDict [("textDocumentSync", PInt 2);
                    ("completionProvider", expected_completion_provider);
                    ("hoverProvider", PBool true)])]
           [("textDocumentSync", PInt 2);
            ("completionProvider", expected_completion_provider)]
           "hoverProvider" (PBool true));
    (reflexivity || discriminate).
Defined.

Lemma check_capabilities_errors_witness :
  check_capabilities
    (PDict [("capabilities", PDict [("textDocumentSync", PInt 2)])])
  = Raise (AssertionError EmptyString).
Proof.
  apply (proj2 (proj2 (check_capabilities_errors
                         [("capabilities", PDict [("textDocumentSync", PInt 2)])]
                         [("textDocumentSync", PInt 2)] eq_refl))
           (PInt 2)); reflexivity.
Defined.

Lemma start_server_failed_shutdown_skips_stop_witness :
  exists o s3,
    start_server posix_os sample_server_failing_shutdown sample_self
      (st_ret tt) new_session = (o, s3) /\
    (forall u, o <> Ok u) /\
    existsb is_stop (trace s3) = false.
Proof.
  destruct (start_server_failed_shutdown_skips_stop posix_os
              sample_server_failing_shutdown sample_self
              sample_initialize_params good_response new_session
              (session_at_yield sample_initialize_params new_session)
              (st_ret tt)
              (conj eq_refl (conj eq_refl (conj eq_refl
                 (conj eq_refl (conj eq_refl eq_refl)))))
              eq_refl)
    as (o & s3 & evs & Hrun & Hnot & Htrace & Hstop).
  { discriminate. }
  exists o, s3. split; [exact Hrun|]. split; [exact Hnot|].
  rewrite Htrace, existsb_app. simpl. by rewrite Hstop.
Defined.

Lemma start_server_failed_startup_leaves_process_witness :
  exists o s1,
    (forall yield_,
        start_server posix_os sample_server_failing_initialize sample_self
          yield_ new_session = (o, s1)) /\
    existsb is_server_start (trace s1) = true /\
    existsb is_stop (trace s1) = false.
Proof.
  destruct (start_server_failed_startup_leaves_process posix_os
              sample_server_failing_initialize sample_self new_session
              eq_refl eq_refl)
    as (o & s1 & evs & Hrun & _ & Htrace & _ & Hstop).
  { intros p r (_ & _ & _ & Hinit & _). discriminate. }
  exists o, s1. split; [exact Hrun|].
  rewrite Htrace, !existsb_app. simpl. by rewrite Hstop.
Defined.

Lemma start_server_exit_keeps_events_witness :
  exists o' s3,
    start_server posix_os (sample_server good_response) sample_self
      (st_ret tt) new_session = (o', s3) /\
    completions_available s3 = true /\ server_ready s3 = true.
Proof.
  eexists _, _. split; [reflexivity|].
  destruct (start_server_exit_keeps_events posix_os (sample_server good_response)
              sample_self sample_initialize_params good_response new_session
              (session_at_yield sample_initialize_params new_session) _
              (st_ret tt) (Ok tt) _
              (conj eq_refl (conj eq_refl (conj eq_refl
                 (conj eq_refl (conj eq_refl eq_refl)))))
              eq_refl eq_refl)
    as (_ & Hc & Hr & _).
  by rewrite Hc, Hr.
Defined.

Lemma start_server_normal_exit_sequence_witness :
  exists s3,
    start_server posix_os (sample_server good_response) sample_self
      (st_ret tt) used_session = (Ok tt, s3) /\
    trace s3
    = trace (session_at_yield sample_initialize_params used_session)
      ++ [EvShutdown; EvStop; EvSuperExit None].
Proof.
  destruct (start_server_normal_exit_sequence posix_os (sample_server good_response)
              sample_self sample_initialize_params good_response used_session
              (session_at_yield sample_initialize_params used_session)
              (st_ret tt)
              (conj eq_refl (conj eq_refl (conj eq_refl
                 (conj eq_refl (conj eq_refl eq_refl)))))
              eq_refl)
    as (o & s3 & evs & Hrun & Htrace & Hok & Hevs & _).
  assert (o = Ok tt) as -> by (apply Hok; by repeat split).
  exists s3. split; [exact Hrun|]. by rewrite Htrace, Hevs.
Defined.

Lemma init_returns_launch_info_witness :
  exists self s',
    __init__ posix_os "/home/user/project" [] = (Ok self, s') /\
    cmd (process_launch_info self) = sample_executable +:+ " --stdio" /\
    cwd (process_launch_info self) = "/home/user/project".
Proof.
  eexists _, _. split; [reflexivity|].
  destruct (init_returns_launch_info posix_os "/home/user/project" [] _ _ eq_refl)
    as (_ & Hcmd & Hcwd & _).
  split; [exact Hcmd|exact Hcwd].
Defined.

Lemma setup_installs_only_into_missing_directory_witness :
  setup_runtime_dependencies posix_os ["/tmp/static/ts-lsp"]
  = (Raise (FileNotFoundError executable_not_found_msg), ["/tmp/static/ts-lsp"]).
Proof.
  pose proof (setup_installs_only_into_missing_directory posix_os
                ["/tmp/static/ts-lsp"] (or_introl eq_refl)) as Hstate.
  destruct (setup_runtime_dependencies posix_os ["/tmp/static/ts-lsp"])
    as [o s'] eqn:Hrun.
  simpl in Hstate. subst s'. f_equal.
  apply (f_equal fst) in Hrun. exact (eq_sym Hrun).
Defined.

Lemma setup_requires_node_then_npm_witness :
  setup_runtime_dependencies
    (sample_os LINUX_x64 sample_module_dir sample_template ["node"] true) []
  = (Raise (AssertionError "npm is not installed or isn't in PATH"), []).
Proof.
  refine (proj2 (setup_requires_node_then_npm
                   (sample_os LINUX_x64 sample_module_dir sample_template ["node"] true)
                   (PList [sample_dependency]) [] _)
            "/usr/bin/node" eq_refl _ eq_refl).
  - exists LINUX_x64,
      [("_description", PStr "Used to download the runtime dependencies");
       ("runtimeDependencies", PList [sample_dependency])], 1.
    repeat split; try reflexivity. discriminate.
  - discriminate.
Defined.

Lemma setup_stops_at_failing_installation_witness :
  setup_runtime_dependencies failing_install_os []
  = (Raise (Exn "CalledProcessError" "returned non-zero exit status 1"),
     ["/tmp/static/ts-lsp"]).
Proof.
  refine (setup_stops_at_failing_installation failing_install_os
            [] [] sample_dependency
            [] ["/tmp/static/ts-lsp"] ["/tmp/static/ts-lsp"] ["/tmp/static/ts-lsp"]
            ["/tmp/static/ts-lsp"] "/usr/bin/node" "/usr/bin/npm"
            (Exn "CalledProcessError" "returned non-zero exit status 1")
            _ eq_refl _ eq_refl _ eq_refl eq_refl eq_refl eq_refl eq_refl).
  - exists LINUX_x64,
      [("_description", PStr "Used to download the runtime dependencies");
       ("runtimeDependencies", PList [sample_dependency])], 1.
    repeat split; try reflexivity. discriminate.
  - discriminate.
  - discriminate.
Defined.

Lemma get_initialize_params_needs_file_uri_witness :
  _get_initialize_params posix_os "project"
  = Raise (ValueError "relative path can't be expressed as a file URI").
Proof.
  apply (get_initialize_params_needs_file_uri posix_os "project"
           sample_template_entries); reflexivity.
Defined.

Lemma get_initialize_params_needs_workspace_folder_witness :
  _get_initialize_params
    (sample_os LINUX_x64 sample_module_dir (PDict template_without_folders)
       ["node"; "npm"] true)
    "/home/user/project"
  = Raise (IndexError "list index out of range").
Proof.
  apply (proj1 (proj2 (get_initialize_params_needs_workspace_folder
                         (sample_os LINUX_x64 sample_module_dir
                            (PDict template_without_folders) ["node"; "npm"] true)
                         "/home/user/project" "file:///home/user/project"
                         template_without_folders
                         eq_refl eq_refl eq_refl eq_refl eq_refl)));
    reflexivity.
Defined.

Lemma references_assertions_compare_stripped_witness :
  references_assertions sample_assert_equal
    (PList (map without_paths sample_references)) (PList sample_references)
  = Ok tt.
Proof.
  rewrite (proj1 (references_assertions_compare_stripped sample_assert_equal
                    (PList (map without_paths sample_references))
                    sample_references eq_refl) eq_refl).
  reflexivity.
Defined.
